(** * Secure data proxy: masking, metadata sanitising and access control

    A shallow embedding of the [secure-data-proxy] edge function
    (TypeScript, Deno) and of the properties its specification states.

    Conventions of the embedding.
    - A JavaScript string is a [string]; every character stands for one
      UTF-16 code unit, so [String.length] is the [.length] of the source.
    - A value that came out of the backing store or goes into a response
      is a [json] tree.  Property access [o.k] is [prop k o] and returns
      an [option]: [None] is JavaScript's [undefined].
    - A column the source casts with [as string] is read at that type:
      a string, or absent ([null], [undefined]); see [as_string].
    - JSON numbers are restricted to integers ([Z]); the places where
      the source does floating-point arithmetic (rounded quotients, the
      comparison of a coerced operand) are kept abstract, and a statement
      that depends on the printed form of a number is made for the
      integers printed digit by digit ([safe_integers]).
    - The response body is the JSON value handed to [JSON.stringify],
      not its text.
    - An awaited call to the identity service or to the backing store
      either resolves, possibly to an [{ error }], or rejects; a rejection
      is an exception at the [await] and ends in the [catch] clause. *)

From Stdlib Require Import String Ascii List ZArith Bool Lia DecimalString DecimalPos.
From Stdlib Require Import Permutation.
Import ListNotations.
Open Scope list_scope.
Open Scope string_scope.

Set Implicit Arguments.
Set Warnings "-register-all".

(** ** JavaScript values *)

Module Js.

Inductive json : Type :=
| JNull
| JBool (b : bool)
| JNum (n : Z)
| JStr (s : string)
| JArr (items : list json)
| JObj (fields : list (string * json)).

(** A plain object ([Record<string, unknown>]): keys in insertion order. *)
Definition object := list (string * json).

(** [o.k] on a plain object. *)
Fixpoint lookup (k : string) (o : object) : option json :=
  match o with
  | [] => None
  | (k', v) :: rest => if String.eqb k k' then Some v else lookup k rest
  end.

(** [v.k] on an arbitrary value: only objects carry the keys read by the
    source (primitives and arrays answer [undefined] for them). *)
Definition prop (k : string) (v : json) : option json :=
  match v with
  | JObj fields => lookup k fields
  | _ => None
  end.

(** [o.k = v] / the [k: v] entry of an object literal written after a
    spread: an existing key keeps its position, a new key is appended. *)
Fixpoint set (k : string) (v : json) (o : object) : object :=
  match o with
  | [] => [(k, v)]
  | (k', v') :: rest =>
      if String.eqb k k' then (k', v) :: rest else (k', v') :: set k v rest
  end.

(** ToBoolean, as applied by [if (x)], [!x], [x ? a : b] and [x || y]. *)
Definition truthy (v : option json) : bool :=
  match v with
  | None => false
  | Some JNull => false
  | Some (JBool b) => b
  | Some (JNum n) => negb (Z.eqb n 0)
  | Some (JStr s) => negb (String.eqb s "")
  | Some (JArr _) => true
  | Some (JObj _) => true
  end.

(** [x === y].  Arrays and objects are compared by reference; every one
    of them here is a freshly parsed value, so two are never identical. *)
Definition strict_eq (x y : option json) : bool :=
  match x, y with
  | None, None => true
  | Some JNull, Some JNull => true
  | Some (JBool a), Some (JBool b) => Bool.eqb a b
  | Some (JNum a), Some (JNum b) => Z.eqb a b
  | Some (JStr a), Some (JStr b) => String.eqb a b
  | _, _ => false
  end.

(** [x as string] for a column typed [string | null]: the cast has no
    run-time effect; a value outside the declared type is read as absent. *)
Definition as_string (v : option json) : option string :=
  match v with
  | Some (JStr s) => Some s
  | _ => None
  end.

(** [!s] for [s : string | null]. *)
Definition absent (s : option string) : bool :=
  match s with
  | None => true
  | Some s => String.eqb s ""
  end.

(** The string behind a [string | null] once [!s] has been ruled out. *)
Definition text (s : option string) : string :=
  match s with
  | Some s => s
  | None => ""
  end.

(** [s.repeat(n)] *)
Fixpoint repeat (s : string) (n : nat) : string :=
  match n with
  | O => ""
  | S n' => s ++ repeat s n'
  end.

(** Index normalisation of [String.prototype.slice]. *)
Definition clamp (len i : Z) : Z :=
  if (i <? 0)%Z then Z.max (len + i) 0 else Z.min i len.

(** [s.slice(from, to)]; [to = None] is the one-argument form. *)
Definition slice (s : string) (from : Z) (to : option Z) : string :=
  let len := Z.of_nat (String.length s) in
  let a := clamp len from in
  let b := match to with Some t => clamp len t | None => len end in
  substring (Z.to_nat a) (Z.to_nat (b - a)) s.

(** [[...new Set(xs)]]: first occurrences, compared with SameValueZero
    (which is [===] on the values modelled here). *)
Fixpoint distinct (xs : list (option json)) : list (option json) :=
  match xs with
  | [] => []
  | x :: rest =>
      x :: filter (fun y => negb (strict_eq x y)) (distinct rest)
  end.

(** The keys [0], [1], ... of an array or of a text of [n] elements. *)
Definition indices (n : nat) : list string :=
  map (fun i => NilZero.string_of_uint (Nat.to_uint i)) (seq 0 n).

(** The code units of a text, each as a text of its own. *)
Fixpoint units (s : string) : list json :=
  match s with
  | EmptyString => []
  | String c rest => JStr (String c "") :: units rest
  end.

(** The own enumerable properties copied by an object spread [{...v}]:
    the fields of an object, the elements of an array and the code units
    of a text under their indices, nothing for any other value. *)
Definition spread (v : json) : object :=
  match v with
  | JObj fields => fields
  | JArr items => combine (indices (List.length items)) items
  | JStr s => combine (indices (String.length s)) (units s)
  | _ => []
  end.

(** [v || null] *)
Definition or_null (v : option json) : json :=
  match v with
  | Some x => if truthy v then x else JNull
  | None => JNull
  end.

(** A [string | null] result as a JSON value. *)
Definition nullable (s : option string) : json :=
  match s with
  | Some x => JStr x
  | None => JNull
  end.

Definition quote : string := String (ascii_of_nat 34) "".
Definition backslash : string := String (ascii_of_nat 92) "".

Definition hex_digit (n : nat) : ascii :=
  if Nat.ltb n 10 then ascii_of_nat (48 + n) else ascii_of_nat (87 + n).

(** QuoteJSONString on one code unit. *)
Definition escape (c : ascii) : string :=
  let n := nat_of_ascii c in
  if Nat.eqb n 34 then backslash ++ quote
  else if Nat.eqb n 92 then backslash ++ backslash
  else if Nat.eqb n 8 then backslash ++ "b"
  else if Nat.eqb n 9 then backslash ++ "t"
  else if Nat.eqb n 10 then backslash ++ "n"
  else if Nat.eqb n 12 then backslash ++ "f"
  else if Nat.eqb n 13 then backslash ++ "r"
  else if Nat.ltb n 32 then
    backslash ++ "u00" ++ String (hex_digit (n / 16)) (String (hex_digit (n mod 16)) "")
  else String c "".

Fixpoint escape_all (s : string) : string :=
  match s with
  | EmptyString => ""
  | String c rest => escape c ++ escape_all rest
  end.

Definition quoted (s : string) : string := quote ++ escape_all s ++ quote.

(** Number.MAX_SAFE_INTEGER *)
Definition max_safe_integer : Z := 9007199254740991.

(** The decimal digits of an integer.  This is the text [JSON.stringify]
    and ToString give for an integer up to [max_safe_integer] in
    magnitude; beyond it the runtime prints the shortest digits of the
    double and, from 10^21 on, an exponent, which is not modelled
    (see [safe_integers]). *)
Definition number_text (n : Z) : string := NilZero.string_of_int (Z.to_int n).

(** [JSON.stringify(v)] *)
Fixpoint stringify (v : json) : string :=
  match v with
  | JNull => "null"
  | JBool true => "true"
  | JBool false => "false"
  | JNum n => number_text n
  | JStr s => quoted s
  | JArr items =>
      "[" ++ String.concat "," (map stringify items) ++ "]"
  | JObj fields =>
      "{" ++ String.concat ","
               (map (fun kv => quoted (fst kv) ++ ":" ++ stringify (snd kv)) fields)
          ++ "}"
  end.

(** ToString, as applied by a template literal [`${v}`]. *)
Fixpoint to_string (v : json) : string :=
  match v with
  | JNull => "null"
  | JBool true => "true"
  | JBool false => "false"
  | JNum n => number_text n
  | JStr s => s
  | JArr items =>
      String.concat ","
        (map (fun x => match x with JNull => "" | _ => to_string x end) items)
  | JObj _ => "[object Object]"
  end.

Definition template (v : option json) : string :=
  match v with
  | None => "undefined"
  | Some x => to_string x
  end.

(** Every number inside the value is an integer of magnitude at most
    [max_safe_integer]: the values [stringify] serialises exactly as
    [JSON.stringify] does. *)
Fixpoint safe_integers (v : json) : bool :=
  match v with
  | JNum n => (Z.abs n <=? max_safe_integer)%Z
  | JArr items => forallb safe_integers items
  | JObj fields => forallb (fun kv => safe_integers (snd kv)) fields
  | _ => true
  end.

End Js.

Import Js.

(** ** Masking utilities *)

(** [function maskPhone(phone: string | null): string] *)
Definition maskPhone (phone : option string) : string :=
  if absent phone then "****"
  else
    let p := text phone in
    if Nat.leb (String.length p) 4 then "****"
    else Js.repeat "*" (String.length p - 4) ++ slice p (-4) None.

(** [function maskUuid(uuid: string | null): string] *)
Definition maskUuid (uuid : option string) : string :=
  if absent uuid then "********"
  else slice (text uuid) 0 (Some 8%Z) ++ "...".

(** [function maskSystemPrompt(prompt: string | null): string | null] *)
Definition maskSystemPrompt (prompt : option string) : option string :=
  if absent prompt then None else Some "[System prompt configured]".

(** [function proxyRecordingUrl(url: string | null, callId: string)] *)
Definition proxyRecordingUrl (url : option string) (callId : string) : option string :=
  if absent url then None else Some ("proxy:recording:" ++ callId).

(** ** Field-level encryption *)

(** Modelled from the spec: the module [_shared/encryption.ts], from which
    the proxy imports [encryptData], is not among the sources.  Following
    the specification, an encrypted envelope carries an algorithm tag, the
    initialisation vector, the authentication tag and the ciphertext, all
    as text, and encrypting empty input answers a fixed "no data" marker
    instead of an envelope.  The authenticated cipher itself (key, nonce
    generation, AES-GCM) is the parameter [cipher] of the development. *)
Record EncryptedPayload := {
  algorithm_tag : string;
  initialization_vector : string;
  authentication_tag : string;
  ciphertext : string
}.

Definition envelope (p : EncryptedPayload) : json :=
  JObj [ ("algorithm_tag", JStr (algorithm_tag p));
         ("initialization_vector", JStr (initialization_vector p));
         ("authentication_tag", JStr (authentication_tag p));
         ("ciphertext", JStr (ciphertext p)) ].

(** ** The request, the response and the services behind the proxy *)

Record Request := {
  method : string;
  authorization : option string;          (* req.headers.get("Authorization") *)
  searchParams : list (string * string)   (* new URL(req.url).searchParams *)
}.

(** [url.searchParams.get(name)]: the first value, or null. *)
Fixpoint searchParams_get (name : string) (params : list (string * string)) : option string :=
  match params with
  | [] => None
  | (k, v) :: rest => if String.eqb name k then Some v else searchParams_get name rest
  end.

Record Response := {
  status : Z;
  headers : list (string * string);
  body : option json
}.

Definition corsHeaders : list (string * string) :=
  [ ("Access-Control-Allow-Origin", "*");
    ("Access-Control-Allow-Headers", "authorization, x-client-info, apikey, content-type") ].

(** [new Response(JSON.stringify(value), { status, headers: { ...corsHeaders,
    "Content-Type": "application/json" } })] *)
Definition json_response (code : Z) (value : json) : Response :=
  {| status := code;
     headers := corsHeaders ++ [("Content-Type", "application/json")];
     body := Some value |}.

Definition error_body (msg : string) : json := JObj [("error", JStr msg)].

(** A query as assembled by the client's builder. *)
Inductive Filter :=
| ColEq (column value : string)
| ColGte (column value : string)
| ColIn (column : string) (values : list (option json)).

Record Query := {
  table : string;
  columns : list string;
  ordering : option (string * bool);   (* column, ascending *)
  filters : list Filter;
  single : bool
}.

(** The builder methods of the client: [supabase.from(t).select(..).eq(..)]. *)
Module supabase.

Definition from (t : string) : Query :=
  {| table := t; columns := []; ordering := None; filters := []; single := false |}.

Definition select (cols : list string) (q : Query) : Query :=
  {| table := table q; columns := cols; ordering := ordering q;
     filters := filters q; single := single q |}.

Definition order (col : string) (ascending : bool) (q : Query) : Query :=
  {| table := table q; columns := columns q; ordering := Some (col, ascending);
     filters := filters q; single := single q |}.

Definition where_ (f : Filter) (q : Query) : Query :=
  {| table := table q; columns := columns q; ordering := ordering q;
     filters := (filters q ++ [f])%list; single := single q |}.

Definition eq (col value : string) : Query -> Query := where_ (ColEq col value).
Definition gte (col value : string) : Query -> Query := where_ (ColGte col value).
Definition in_ (col : string) (values : list (option json)) : Query -> Query :=
  where_ (ColIn col values).

Definition single_ (q : Query) : Query :=
  {| table := table q; columns := columns q; ordering := ordering q;
     filters := filters q; single := true |}.

End supabase.

Notation "q |> f" := (f q) (at level 45, left associativity, only parsing).

Record PostgrestError := { message : string }.

(** The [{ data, error }] pair every awaited query resolves to. *)
Record PostgrestResponse (T : Type) := {
  data : option T;
  error : option PostgrestError
}.

(** The [{ data: { user }, error }] pair of [auth.getUser()]; a user is
    represented by its id. *)
Record UserResponse := {
  user : option string;
  authError : option string
}.

(** An awaited promise either resolves or rejects (the rejection is
    thrown at the [await]). *)
Inductive Awaited (A : Type) :=
| Resolved (a : A)
| Rejected (reason : string).
Arguments Rejected {A} reason.

(** The services the handler talks to: the identity service behind
    [userClient.auth.getUser()] (keyed by the Authorization header the
    client was created with), the backing store behind the service
    client, and the clock read by [today_stats]. *)
Record Backend := {
  getUser : string -> Awaited UserResponse;
  fetch_rows : Query -> Awaited (PostgrestResponse (list object));
  fetch_single : Query -> Awaited (PostgrestResponse object);
  today_midnight : string    (* today.setHours(0,0,0,0); today.toISOString() *)
}.

(** What the handler did to the outside world, in order. *)
Inductive Event :=
| AuthCheck (authHeader : string)
| Fetch (q : Query).

(** ** The handler monad: a trace of outside calls, and exceptions *)

Inductive Outcome (A : Type) :=
| Done (a : A)
| Thrown (reason : string).
Arguments Thrown {A} reason.

Definition Task (A : Type) : Type := list Event -> Outcome A * list Event.

Definition ret {A} (a : A) : Task A := fun t => (Done a, t).

Definition bind {A B} (m : Task A) (k : A -> Task B) : Task B :=
  fun t =>
    match m t with
    | (Done a, t') => k a t'
    | (Thrown e, t') => (Thrown e, t')
    end.

Notation "x <- m ;; k" := (bind m (fun x => k))
  (at level 61, m at next level, right associativity).

(** [await p], where issuing [p] is the outside call [ev]. *)
Definition await {A} (ev : Event) (p : Awaited A) : Task A :=
  fun t =>
    (match p with Resolved a => Done a | Rejected e => Thrown e end,
     (t ++ [ev])%list).

(** ** The proxy *)

Section Proxy.

(** The authenticated cipher of the encryption module, see
    [EncryptedPayload]; [no_data] is its marker for empty input. *)
Variable cipher : string -> EncryptedPayload.
Variable no_data : json.

(** [Math.round((connected / total) * 100)] and
    [Math.round(totalDuration / total)] in double-precision arithmetic,
    which is left abstract. *)
Variable round_percent : Z -> Z -> Z.
Variable round_quotient : Z -> Z -> Z.

Variable backend : Backend.

(** Modelled from the spec: [encryptData] of [_shared/encryption.ts]
    (absent from the sources): empty input answers the "no data" marker,
    any other plaintext its encrypted envelope. *)
Definition encryptData (plaintext : string) : json :=
  if String.eqb plaintext "" then no_data else envelope (cipher plaintext).

(** [if (metadata.k) sanitized.k = metadata.k] *)
Definition keep_truthy (k : string) (metadata : json) (sanitized : object) : object :=
  if truthy (prop k metadata) then set k (or_null (prop k metadata)) sanitized
  else sanitized.

(** [if (metadata.k !== undefined) sanitized.k = metadata.k] *)
Definition keep_defined (k : string) (metadata : json) (sanitized : object) : object :=
  match prop k metadata with
  | Some v => set k v sanitized
  | None => sanitized
  end.

(** [async function sanitizeMetadata(metadata)]; the result is [null] or
    the sanitized object. *)
Definition sanitizeMetadata (metadata : option json) : json :=
  if negb (truthy metadata) then JNull
  else
    let metadata := or_null metadata in
    let sanitized : object := [] in
    let sanitized := keep_truthy "source" metadata sanitized in
    let sanitized := keep_defined "is_retry" metadata sanitized in
    let sanitized := keep_truthy "lead_name" metadata sanitized in
    let sanitized := keep_truthy "campaign_id" metadata sanitized in
    let sanitized := keep_truthy "aitel_status" metadata sanitized in
    let sanitized := keep_truthy "error_message" metadata sanitized in
    let sanitized := keep_defined "retry_attempt" metadata sanitized in
    let sanitized := keep_defined "answered_by_voicemail" metadata sanitized in
    let sanitized :=
      if truthy (prop "extracted_data" metadata) then
        let extractedStr :=
          match prop "extracted_data" metadata with
          | Some (JStr s) => s
          | other => stringify (or_null other)
          end in
        set "extracted_data" (encryptData extractedStr) sanitized
      else sanitized in
    JObj sanitized.

(** [v ? await encryptData(v as string) : null] for a text column. *)
Definition encrypted (v : option json) : json :=
  if absent (as_string v) then JNull else encryptData (text (as_string v)).

Definition await_rows (q : Query) : Task (PostgrestResponse (list object)) :=
  await (Fetch q) (fetch_rows backend q).

Definition await_single (q : Query) : Task (PostgrestResponse object) :=
  await (Fetch q) (fetch_single backend q).

(** [rows || []] *)
Definition or_empty (rows : option (list object)) : list object :=
  match rows with
  | Some rs => rs
  | None => []
  end.

(** [rows?.find(r => r.id === key) || null] *)
Definition joined (rows : option (list object)) (key : option json) : json :=
  match rows with
  | Some rs =>
      match List.find (fun r => strict_eq (lookup "id" r) key) rs with
      | Some r => JObj r
      | None => JNull
      end
  | None => JNull
  end.

Definition is_action (action : option string) (name : string) : bool :=
  match action with
  | Some a => String.eqb a name
  | None => false
  end.

Definition ok (value : json) : Response := json_response 200 value.

Definition upstream_error (e : PostgrestError) : Response :=
  json_response 500 (error_body (message e)).

Definition forbidden : Response := json_response 403 (error_body "Forbidden").

(** *** action=demo_calls *)

Definition demo_calls_query (userRole : option json) (engineerId : option string) : Query :=
  let query :=
    supabase.from "demo_calls"
    |> supabase.select
         [ "id"; "task_id"; "agent_id"; "engineer_id"; "phone_number"; "status";
           "duration_seconds"; "started_at"; "ended_at"; "created_at"; "updated_at";
           "external_call_id"; "recording_url"; "uploaded_audio_url"; "transcript" ]
    |> supabase.order "created_at" false in
  (* Engineers can only see their own calls *)
  if strict_eq userRole (Some (JStr "engineer")) && negb (absent engineerId)
  then query |> supabase.eq "engineer_id" (text engineerId)
  else query.

Definition demo_tasks_query (taskIds : list (option json)) : Query :=
  supabase.from "tasks"
  |> supabase.select ["id"; "title"; "selected_demo_call_id"; "assigned_to"]
  |> supabase.in_ "id" taskIds.

Definition demo_agents_query (agentIds : list (option json)) : Query :=
  supabase.from "aitel_agents"
  |> supabase.select ["id"; "agent_name"]
  |> supabase.in_ "id" agentIds.

(** The five overrides shared by both demo-call listings. *)
Definition mask_demo_fields (call : object) : object :=
  call
  |> set "phone_number" (JStr (maskPhone (as_string (lookup "phone_number" call))))
  |> set "external_call_id" (JStr (maskUuid (as_string (lookup "external_call_id" call))))
  |> set "transcript" (encrypted (lookup "transcript" call))
  |> set "recording_url"
       (nullable (proxyRecordingUrl (as_string (lookup "recording_url" call))
                                    (template (lookup "id" call))))
  |> set "uploaded_audio_url"
       (nullable (proxyRecordingUrl (as_string (lookup "uploaded_audio_url" call))
                                    (template (lookup "id" call)))).

Definition mask_demo_call (tasks agents : option (list object)) (call : object) : object :=
  mask_demo_fields call
  |> set "tasks" (joined tasks (lookup "task_id" call))
  |> set "aitel_agents" (joined agents (lookup "agent_id" call)).

Definition demo_calls (userRole : option json) (req : Request) : Task Response :=
  let engineerId := searchParams_get "engineer_id" (searchParams req) in
  r <- await_rows (demo_calls_query userRole engineerId) ;;
  match error r with
  | Some demoError => ret (upstream_error demoError)
  | None =>
      let demoCalls := data r in
      let taskIds := distinct (map (lookup "task_id") (or_empty demoCalls)) in
      tasks <- await_rows (demo_tasks_query taskIds) ;;
      let agentIds := distinct (map (lookup "agent_id") (or_empty demoCalls)) in
      agents <- await_rows (demo_agents_query agentIds) ;;
      let maskedData :=
        map (mask_demo_call (data tasks) (data agents)) (or_empty demoCalls) in
      ret (ok (JArr (map JObj maskedData)))
  end.

(** *** action=admin_demo_calls *)

Definition admin_demo_calls_query : Query :=
  supabase.from "demo_calls" |> supabase.select ["*"] |> supabase.order "created_at" false.

Definition admin_demo_calls (userRole : option json) : Task Response :=
  if negb (strict_eq userRole (Some (JStr "admin"))) then ret forbidden
  else
    r <- await_rows admin_demo_calls_query ;;
    match error r with
    | Some e => ret (upstream_error e)
    | None =>
        let maskedData := map mask_demo_fields (or_empty (data r)) in
        ret (ok (JArr (map JObj maskedData)))
    end.

(** *** action=calls *)

Definition calls_query (startDate clientId statusFilter : option string) : Query :=
  let query :=
    supabase.from "calls"
    |> supabase.select
         [ "id"; "agent_id"; "client_id"; "lead_id"; "status"; "connected";
           "duration_seconds"; "started_at"; "ended_at"; "created_at";
           "sentiment"; "summary"; "transcript"; "recording_url";
           "external_call_id"; "metadata" ]
    |> supabase.order "created_at" false in
  let query :=
    if negb (absent startDate) then query |> supabase.gte "created_at" (text startDate)
    else query in
  let query :=
    if negb (absent clientId) then query |> supabase.eq "client_id" (text clientId)
    else query in
  let query :=
    if negb (absent statusFilter) && negb (String.eqb (text statusFilter) "all")
    then query |> supabase.eq "status" (text statusFilter)
    else query in
  query.

(** The five overrides shared by both call listings. *)
Definition mask_call_fields (call : object) : object :=
  call
  |> set "lead_id" (JStr (maskUuid (as_string (lookup "lead_id" call))))
  |> set "transcript" (encrypted (lookup "transcript" call))
  |> set "summary" (encrypted (lookup "summary" call))
  |> set "recording_url"
       (nullable (proxyRecordingUrl (as_string (lookup "recording_url" call))
                                    (template (lookup "id" call))))
  |> set "metadata" (sanitizeMetadata (lookup "metadata" call)).

Definition mask_call (call : object) : object :=
  mask_call_fields call |> set "agent" (JObj [("name", JStr "Agent")]).

Definition calls (req : Request) : Task Response :=
  let clientId := searchParams_get "client_id" (searchParams req) in
  let startDate := searchParams_get "start_date" (searchParams req) in
  let statusFilter := searchParams_get "status" (searchParams req) in
  r <- await_rows (calls_query startDate clientId statusFilter) ;;
  match error r with
  | Some e => ret (upstream_error e)
  | None =>
      let maskedData := map mask_call (or_empty (data r)) in
      ret (ok (JArr (map JObj maskedData)))
  end.

(** *** action=active_calls *)

Definition active_calls_query : Query :=
  supabase.from "calls"
  |> supabase.select ["*"]
  |> supabase.in_ "status" [Some (JStr "initiated"); Some (JStr "in_progress")]
  |> supabase.order "created_at" false.

Definition active_calls (userRole : option json) : Task Response :=
  if negb (strict_eq userRole (Some (JStr "admin"))) then ret forbidden
  else
    r <- await_rows active_calls_query ;;
    match error r with
    | Some e => ret (upstream_error e)
    | None =>
        let maskedData := map mask_call_fields (or_empty (data r)) in
        ret (ok (JArr (map JObj maskedData)))
    end.

(** *** action=today_stats *)

Definition today_stats_query : Query :=
  supabase.from "calls"
  |> supabase.select ["status"; "connected"; "duration_seconds"]
  |> supabase.gte "created_at" (today_midnight backend).

Definition count (p : object -> bool) (rows : list object) : Z :=
  Z.of_nat (List.length (filter p rows)).

(** [(c.duration_seconds as number) || 0] *)
Definition duration_or_zero (c : object) : Z :=
  match lookup "duration_seconds" c with
  | Some (JNum n) => n
  | _ => 0%Z
  end.

Definition has_status (name : string) (c : object) : bool :=
  strict_eq (lookup "status" c) (Some (JStr name)).

(** The aggregate returned by [today_stats]: scalars only. *)
Definition today_summary (todayCalls : list object) : json :=
  let total := Z.of_nat (List.length todayCalls) in
  let completed := count (has_status "completed") todayCalls in
  let connected := count (fun c => truthy (lookup "connected" c)) todayCalls in
  let failed := count (has_status "failed") todayCalls in
  let inProgress :=
    count (fun c => has_status "initiated" c || has_status "in_progress" c)
          todayCalls in
  let totalDuration :=
    fold_left (fun sum c => (sum + duration_or_zero c)%Z) todayCalls 0%Z in
  JObj
    [ ("total", JNum total);
      ("completed", JNum completed);
      ("connected", JNum connected);
      ("failed", JNum failed);
      ("inProgress", JNum inProgress);
      ("connectionRate",
         JNum (if (0 <? total)%Z then round_percent connected total else 0%Z));
      ("avgDuration",
         JNum (if (0 <? total)%Z then round_quotient totalDuration total else 0%Z)) ].

Definition today_stats (userRole : option json) : Task Response :=
  if negb (strict_eq userRole (Some (JStr "admin"))) then ret forbidden
  else
    r <- await_rows today_stats_query ;;
    match error r with
    | Some e => ret (upstream_error e)
    | None => ret (ok (today_summary (or_empty (data r))))
    end.

(** *** action=tasks *)

Definition tasks_query (assignedTo status : option string) : Query :=
  let query :=
    supabase.from "tasks"
    |> supabase.select ["*"; "aitel_agents(agent_name, external_agent_id)"]
    |> supabase.order "created_at" false in
  let query :=
    if negb (absent assignedTo) then query |> supabase.eq "assigned_to" (text assignedTo)
    else query in
  let query :=
    if negb (absent status) then query |> supabase.eq "status" (text status)
    else query in
  query.

Definition mask_task (task : object) : object :=
  task
  |> set "aitel_agents"
       (if truthy (lookup "aitel_agents" task) then
          let agent := or_null (lookup "aitel_agents" task) in
          JObj (spread agent
                |> set "external_agent_id"
                     (JStr (maskUuid (as_string (prop "external_agent_id" agent))))
                |> set "current_system_prompt"
                     (nullable (maskSystemPrompt (as_string (prop "current_system_prompt" agent))))
                |> set "original_system_prompt"
                     (nullable (maskSystemPrompt (as_string (prop "original_system_prompt" agent)))))
        else JNull).

Definition tasks (req : Request) : Task Response :=
  let assignedTo := searchParams_get "assigned_to" (searchParams req) in
  let status := searchParams_get "status" (searchParams req) in
  r <- await_rows (tasks_query assignedTo status) ;;
  match error r with
  | Some e => ret (upstream_error e)
  | None =>
      let maskedData := map mask_task (or_empty (data r)) in
      ret (ok (JArr (map JObj maskedData)))
  end.

(** *** The gate and the dispatch *)

Definition role_query (userId : string) : Query :=
  supabase.from "user_roles"
  |> supabase.select ["role"]
  |> supabase.eq "user_id" userId
  |> supabase.single_.

(** [authHeader?.startsWith("Bearer ")] *)
Definition bearer (authHeader : option string) : bool :=
  match authHeader with
  | Some h => prefix "Bearer " h
  | None => false
  end.

(** The chain of [if (action === ...)] blocks, closed by the 400. *)
Definition dispatch (userRole : option json) (req : Request) : Task Response :=
  let action := searchParams_get "action" (searchParams req) in
  if is_action action "demo_calls" then demo_calls userRole req
  else if is_action action "admin_demo_calls" then admin_demo_calls userRole
  else if is_action action "calls" then calls req
  else if is_action action "active_calls" then active_calls userRole
  else if is_action action "today_stats" then today_stats userRole
  else if is_action action "tasks" then tasks req
  else ret (json_response 400 (error_body "Invalid action")).

(** The body of the [try] block. *)
Definition proxy (req : Request) : Task Response :=
  let authHeader := authorization req in
  if negb (bearer authHeader) then ret (json_response 401 (error_body "Unauthorized"))
  else
    u <- await (AuthCheck (text authHeader)) (getUser backend (text authHeader)) ;;
    match authError u, user u with
    | None, Some userId =>
        roleResponse <- await_single (role_query userId) ;;
        let userRole :=
          match data roleResponse with
          | Some roleData => lookup "role" roleData
          | None => None
          end in
        dispatch userRole req
    | _, _ => ret (json_response 401 (error_body "Invalid token"))
    end.

(** The [catch] clause: whatever was thrown, the answer is the same. *)
Definition settle (result : Outcome Response * list Event) : Response * list Event :=
  match result with
  | (Done response, trace) => (response, trace)
  | (Thrown _, trace) =>
      (json_response 500 (error_body "Internal server error"), trace)
  end.

(** [serve(async (req) => ...)]: the response, and the outside calls made
    while producing it. *)
Definition serve (req : Request) : Response * list Event :=
  if String.eqb (method req) "OPTIONS" then
    ({| status := 200; headers := corsHeaders; body := None |}, [])
  else settle (proxy req []).

(** The query an action fetches its rows with. *)
Definition primary_query (userRole : option json) (req : Request) (action : string) : Query :=
  let param name := searchParams_get name (searchParams req) in
  if String.eqb action "demo_calls" then demo_calls_query userRole (param "engineer_id")
  else if String.eqb action "admin_demo_calls" then admin_demo_calls_query
  else if String.eqb action "calls" then
    calls_query (param "start_date") (param "client_id") (param "status")
  else if String.eqb action "active_calls" then active_calls_query
  else if String.eqb action "today_stats" then today_stats_query
  else tasks_query (param "assigned_to") (param "status").

End Proxy.

(** ** An in-memory backend

    A fake of the identity service and of the backing store, used to run
    the handler on concrete data.  It answers a query from a list of rows
    per table, applying the filters, the ordering and the column list of
    the query; a table can also be made to answer with an error or to
    reject the call. *)

Module Fake.

Inductive TableState :=
| Rows (rows : list object)
| Failing (msg : string)
| Unreachable (reason : string).

Record Database := {
  sessions : list (string * string);        (* Authorization header, user id *)
  tables : list (string * TableState);
  clock : string
}.

Fixpoint assoc {A} (k : string) (l : list (string * A)) : option A :=
  match l with
  | [] => None
  | (k', v) :: rest => if String.eqb k k' then Some v else assoc k rest
  end.

Definition cell_text (v : option json) : option string :=
  match v with
  | None | Some JNull => None
  | Some x => Some (to_string x)
  end.

Definition satisfies (row : object) (f : Filter) : bool :=
  match f with
  | ColEq col value =>
      match cell_text (lookup col row) with
      | Some s => String.eqb s value
      | None => false
      end
  | ColGte col value =>
      match cell_text (lookup col row) with
      | Some s => String.leb value s
      | None => false
      end
  | ColIn col values =>
      match lookup col row with
      | None | Some JNull => false
      | Some x => existsb (strict_eq (Some x)) values
      end
  end.

Definition before (col : string) (ascending : bool) (a b : object) : bool :=
  let ka := text (cell_text (lookup col a)) in
  let kb := text (cell_text (lookup col b)) in
  if ascending then String.leb ka kb else String.leb kb ka.

Fixpoint insert_sorted (col : string) (ascending : bool) (r : object) (rows : list object) :=
  match rows with
  | [] => [r]
  | x :: rest =>
      if before col ascending r x then r :: x :: rest
      else x :: insert_sorted col ascending r rest
  end.

Definition sorted (o : option (string * bool)) (rows : list object) : list object :=
  match o with
  | Some (col, ascending) => fold_right (insert_sorted col ascending) [] rows
  | None => rows
  end.

Definition projected (cols : list string) (row : object) : object :=
  if existsb (String.eqb "*") cols then row
  else filter (fun kv => existsb (String.eqb (fst kv)) cols) row.

Definition answer (q : Query) (rows : list object) : list object :=
  map (projected (columns q))
      (sorted (ordering q)
              (filter (fun r => forallb (satisfies r) (filters q)) rows)).

Definition run_rows (db : Database) (q : Query) : Awaited (PostgrestResponse (list object)) :=
  match assoc (table q) (tables db) with
  | Some (Rows rows) => Resolved {| data := Some (answer q rows); error := None |}
  | Some (Failing msg) => Resolved {| data := None; error := Some {| message := msg |} |}
  | Some (Unreachable reason) => Rejected reason
  | None =>
      Resolved {| data := None;
                  error := Some {| message := "relation does not exist" |} |}
  end.

Definition run_single (db : Database) (q : Query) : Awaited (PostgrestResponse object) :=
  match run_rows db q with
  | Resolved r =>
      match data r, error r with
      | Some [row], None => Resolved {| data := Some row; error := None |}
      | _, Some e => Resolved {| data := None; error := Some e |}
      | _, None =>
          Resolved {| data := None;
                      error := Some {| message := "JSON object requested, multiple (or no) rows returned" |} |}
      end
  | Rejected reason => Rejected reason
  end.

Definition identify (db : Database) (authHeader : string) : Awaited UserResponse :=
  match assoc authHeader (sessions db) with
  | Some uid => Resolved {| user := Some uid; authError := None |}
  | None => Resolved {| user := None; authError := Some "invalid JWT" |}
  end.

Definition services (db : Database) : Backend :=
  {| getUser := identify db;
     fetch_rows := run_rows db;
     fetch_single := run_single db;
     today_midnight := clock db |}.

(** A toy cipher standing in for the authenticated encryption. *)
Definition cipher (plaintext : string) : EncryptedPayload :=
  {| algorithm_tag := "AES-256-GCM";
     initialization_vector := "bm9uY2U=";
     authentication_tag := "dGFn";
     ciphertext := "sealed(" ++ NilZero.string_of_uint (Nat.to_uint (String.length plaintext)) ++ ")" |}.

Definition no_data : json := JNull.

Definition round_percent (a b : Z) : Z := ((200 * a + b) / (2 * b))%Z.
Definition round_quotient (a b : Z) : Z := ((2 * a + b) / (2 * b))%Z.

(** The handler running against a database. *)
Definition respond (db : Database) (req : Request) : Response * list Event :=
  serve cipher no_data round_percent round_quotient (services db) req.

Definition get (auth : option string) (params : list (string * string)) : Request :=
  {| method := "GET"; authorization := auth; searchParams := params |}.

End Fake.


(** ** Vocabulary of the properties *)

(** The request passed the gate as user [userId]: it is not a preflight,
    carries a bearer header, and the identity service answered with that
    user and no error. *)
Definition authenticated (be : Backend) (req : Request) (userId : string) : Prop :=
  method req <> "OPTIONS" /\
  bearer (authorization req) = true /\
  getUser be (text (authorization req)) =
    Resolved {| user := Some userId; authError := None |}.

(** The role lookup of [userId] resolved, and [userRole] is what the
    handler reads off it ([None] when there is no role record). *)
Definition resolved_role (be : Backend) (userId : string) (userRole : option json) : Prop :=
  exists r,
    fetch_single be (role_query userId) = Resolved r /\
    userRole = match data r with
               | Some roleData => lookup "role" roleData
               | None => None
               end.

(** The outside calls every dispatched request has made before its
    action runs. *)
Definition gate_trace (req : Request) (userId : string) : list Event :=
  [AuthCheck (text (authorization req)); Fetch (role_query userId)].

Definition action_of (req : Request) : option string :=
  searchParams_get "action" (searchParams req).

Definition supported_actions : list string :=
  ["demo_calls"; "admin_demo_calls"; "calls"; "active_calls"; "today_stats"; "tasks"].

Definition admin_actions : list string :=
  ["admin_demo_calls"; "active_calls"; "today_stats"].

Definition admin : option json := Some (JStr "admin").
Definition engineer : option json := Some (JStr "engineer").

(** The metadata keys copied when their value is truthy, and those
    copied whenever they are defined. *)
Definition truthy_keys : list string :=
  ["source"; "lead_name"; "campaign_id"; "aitel_status"; "error_message"].

Definition defined_keys : list string :=
  ["is_retry"; "retry_attempt"; "answered_by_voicemail"].

Definition allow_list : list string :=
  ["source"; "is_retry"; "lead_name"; "campaign_id"; "aitel_status";
   "error_message"; "retry_attempt"; "answered_by_voicemail"].

Definition mem (k : string) (l : list string) : bool := existsb (String.eqb k) l.

(** The text [sanitizeMetadata] encrypts for a truthy [extracted_data]. *)
Definition extracted_text (v : json) : string :=
  match v with
  | JStr s => s
  | other => stringify other
  end.

(** The sanitized metadata as the specification describes it.  [kept]
    is what is passed on under an allow-listed key; [sanitized_fields]
    lists the kept entries in the order of the allow-list, followed by
    the sealed form of [extracted_data] when there is one. *)
Definition kept (fields : object) (k : string) : option json :=
  if mem k truthy_keys then
    if truthy (lookup k fields) then lookup k fields else None
  else if mem k defined_keys then lookup k fields
  else None.

Definition entry (k : string) (v : option json) : object :=
  match v with
  | Some x => [(k, x)]
  | None => []
  end.

Definition sanitized_fields (fields : object) (sealed : option json) : object :=
  (flat_map (fun k => entry k (kept fields k)) allow_list
   ++ entry "extracted_data" sealed)%list.

(** A response value that is [null] or an encrypted envelope. *)
Definition null_or_envelope (v : option json) : Prop :=
  v = Some JNull \/ exists p, v = Some (envelope p).

(** A listed call: transcript and summary are sealed, and the metadata
    is [null] or holds allow-listed keys and a sealed [extracted_data]
    only. *)
Definition call_row_sealed (out : json) : Prop :=
  null_or_envelope (prop "transcript" out) /\
  null_or_envelope (prop "summary" out) /\
  (prop "metadata" out = Some JNull \/
   exists m,
     prop "metadata" out = Some (JObj m) /\
     (forall k, lookup k m <> None -> In k allow_list \/ k = "extracted_data") /\
     (lookup "extracted_data" m = None \/
      exists p, lookup "extracted_data" m = Some (envelope p))).

(** A listed demo call: the transcript is sealed. *)
Definition demo_row_sealed (out : json) : Prop :=
  null_or_envelope (prop "transcript" out).

(** A body made of numbers only. *)
Definition scalar_body (b : option json) : Prop :=
  exists fields,
    b = Some (JObj fields) /\ Forall (fun kv => exists n, snd kv = JNum n) fields.

(** The answer is an array body all of whose rows satisfy [P]. *)
Definition sealed_listing (P : json -> Prop) (result : Response * list Event) : Prop :=
  exists rows, body (fst result) = Some (JArr rows) /\ Forall P rows.

(** The rows of an array body. *)
Definition rows_of (r : Response) : list json :=
  match body r with
  | Some (JArr rows) => rows
  | _ => []
  end.

(** ** Sample data *)

Module Sample.

Definition demo_own : object :=
  [ ("id", JStr "d1"); ("task_id", JStr "t1"); ("agent_id", JStr "a1");
    ("engineer_id", JStr "eng-1"); ("phone_number", JStr "9876543210");
    ("created_at", JStr "2025-01-01T10:00:00Z"); ("transcript", JStr "hi") ].

Definition demo_foreign : object :=
  [ ("id", JStr "d2"); ("task_id", JStr "t1"); ("agent_id", JStr "a1");
    ("engineer_id", JStr "eng-2"); ("phone_number", JStr "12");
    ("created_at", JStr "2025-01-02T10:00:00Z"); ("transcript", JNull) ].

Definition call_done : object :=
  [ ("id", JStr "c1"); ("lead_id", JStr "L1"); ("client_id", JStr "C1");
    ("status", JStr "completed"); ("created_at", JStr "2025-01-02T09:00:00Z");
    ("transcript", JStr "hello"); ("summary", JStr "went well");
    ("recording_url", JStr "https://storage.example/r.mp3");
    ("metadata",
       JObj [ ("source", JStr "fb"); ("secret_token", JStr "xyz");
              ("lead_name", JStr "Jane"); ("error_message", JNull);
              ("extracted_data", JObj [("budget", JNum 5)]) ]) ].

(** A call whose transcript has not been written yet: the empty text. *)
Definition call_pending : object :=
  [ ("id", JStr "c2"); ("lead_id", JStr "0f8fad5b-d9cb-469f-a165-70867728950e");
    ("client_id", JStr "C1"); ("status", JStr "in_progress");
    ("created_at", JStr "2025-01-01T09:00:00Z");
    ("transcript", JStr ""); ("summary", JNull);
    ("recording_url", JStr "https://storage.example/r2.mp3");
    ("metadata", JNull) ].

Definition task_row : object :=
  [ ("id", JStr "t1"); ("title", JStr "Demo"); ("created_at", JStr "2025-01-01T08:00:00Z");
    ("aitel_agents",
       JObj [("agent_name", JStr "Asha"); ("external_agent_id", JStr "0123456789abcdef")]) ].

Definition sessions : list (string * string) :=
  [ ("Bearer eng1", "eng-1"); ("Bearer adm", "adm-1"); ("Bearer guest", "u-9") ].

Definition roles : Fake.TableState :=
  Fake.Rows [ [("user_id", JStr "eng-1"); ("role", JStr "engineer")];
              [("user_id", JStr "adm-1"); ("role", JStr "admin")] ].

Definition db_with (calls_table : Fake.TableState) : Fake.Database :=
  {| Fake.sessions := sessions;
     Fake.tables :=
       [ ("user_roles", roles);
         ("demo_calls", Fake.Rows [demo_own; demo_foreign]);
         ("tasks", Fake.Rows [task_row]);
         ("aitel_agents", Fake.Rows [[("id", JStr "a1"); ("agent_name", JStr "Asha")]]);
         ("calls", calls_table) ];
     Fake.clock := "2025-01-02T00:00:00.000Z" |}.

Definition db : Fake.Database := db_with (Fake.Rows [call_pending; call_done]).

(** The store refuses the [calls] table, resp. cannot be reached. *)
Definition db_denied : Fake.Database :=
  db_with (Fake.Failing "permission denied for table calls").

Definition db_offline : Fake.Database :=
  db_with (Fake.Unreachable "connection reset").

End Sample.

(** ** Further vocabulary *)

(** The tables the actions read. *)
Definition data_tables : list string :=
  ["demo_calls"; "tasks"; "aitel_agents"; "calls"].

Definition status_codes : list Z := [200; 400; 401; 403; 500]%Z.

Definition json_headers : list (string * string) :=
  (corsHeaders ++ [("Content-Type", "application/json")])%list.

(** A fetch of one of the data tables. *)
Definition data_fetch (ev : Event) : Prop :=
  exists q, ev = Fetch q /\ In (table q) data_tables.

(** The names of the query parameters the handler reads. *)
Definition read_parameters : list string :=
  ["action"; "engineer_id"; "client_id"; "start_date"; "status"; "assigned_to"].

(** The keys a listing writes into a row of [calls], resp. of
    [demo_calls]. *)
Definition call_overrides : list string :=
  ["lead_id"; "transcript"; "summary"; "recording_url"; "metadata"].

Definition demo_overrides : list string :=
  ["phone_number"; "external_call_id"; "transcript"; "recording_url";
   "uploaded_audio_url"].

Definition agent_overrides : list string :=
  ["external_agent_id"; "current_system_prompt"; "original_system_prompt"].

(** The keys of an object, in order. *)
Definition keys (o : object) : list string := map fst o.

(** Writing keys of [ks] into an object keeps its keys in place, adds
    at the end those it lacked, and keeps keys unique. *)
Definition extends (ks : list string) (o o' : object) : Prop :=
  exists added,
    keys o' = (keys o ++ added)%list /\
    (forall k, In k added -> In k ks /\ ~ In k (keys o)) /\
    (NoDup (keys o) -> NoDup (keys o')).

(** An integer field of an object. *)
Definition number_at (k : string) (v : json) : option Z :=
  match prop k v with
  | Some (JNum n) => Some n
  | _ => None
  end.

(** Services that are out of reach: every call rejects. *)
Module Outage.

Definition identity_down : Backend :=
  {| getUser := fun _ => Rejected "identity service unavailable";
     fetch_rows := Fake.run_rows Sample.db;
     fetch_single := Fake.run_single Sample.db;
     today_midnight := Fake.clock Sample.db |}.

Definition roles_down : Backend :=
  {| getUser := Fake.identify Sample.db;
     fetch_rows := Fake.run_rows Sample.db;
     fetch_single := fun _ => Rejected "connection reset";
     today_midnight := Fake.clock Sample.db |}.

(** The join tables answer with an error; the listing itself works. *)
Definition joins_denied : Fake.Database :=
  {| Fake.sessions := Sample.sessions;
     Fake.tables :=
       [ ("user_roles", Sample.roles);
         ("demo_calls", Fake.Rows [Sample.demo_own; Sample.demo_foreign]);
         ("tasks", Fake.Failing "permission denied for table tasks");
         ("aitel_agents", Fake.Failing "permission denied for table aitel_agents") ];
     Fake.clock := "2025-01-02T00:00:00.000Z" |}.

End Outage.

(** A recorded demo call, with every masked column set but the upload. *)
Module Archive.

Definition demo_recorded : object :=
  [ ("id", JStr "d7"); ("task_id", JStr "t1"); ("agent_id", JStr "a1");
    ("engineer_id", JStr "eng-1"); ("phone_number", JStr "+919876543210");
    ("status", JStr "completed");
    ("created_at", JStr "2025-01-03T10:00:00Z");
    ("external_call_id", JStr "7c9e6679-7425-40de-944b-e07fc1f90ae7");
    ("recording_url", JStr "https://storage.example/d7.mp3");
    ("uploaded_audio_url", JNull);
    ("transcript", JStr "Agent: hello") ].

Definition db : Fake.Database :=
  {| Fake.sessions := Sample.sessions;
     Fake.tables :=
       [ ("user_roles", Sample.roles);
         ("demo_calls", Fake.Rows [demo_recorded]) ];
     Fake.clock := "2025-01-03T00:00:00.000Z" |}.

End Archive.

(** ** The provider webhook

    The edge function that receives the events of the voice provider and
    writes them to the [calls] and [leads] tables: the writer of the rows
    the proxy lists. *)

Module Webhook.

(** What is thrown at an [await]: an [Error] with its message, or some
    other value. *)
Inductive Raised :=
| ErrorWith (message : string)
| NotAnError.

Inductive Settled (A : Type) :=
| Fulfilled (a : A)
| Failed (e : Raised).
Arguments Failed {A} e.

(** The request: its method and the outcome of [req.json()]. *)
Record Delivery := {
  verb : string;
  json_body : Settled json
}.

(** The service client, as the webhook uses it; the environment is taken
    to hold its address and key, as the source asserts. *)
Record Store := {
  (* supabase.from("calls").select("*").eq(..).maybeSingle() *)
  find : Query -> Settled (PostgrestResponse object);
  (* supabase.from(table).update(values).eq(column, value) *)
  update : string -> object -> string -> string -> Settled unit;
  (* new Date().toISOString() *)
  now : string
}.

Inductive Effect :=
| Select (q : Query)
| Update (table : string) (values : object) (column value : string).

Definition Job (A : Type) : Type := list Effect -> Settled A * list Effect.

Definition pure {A} (a : A) : Job A := fun t => (Fulfilled a, t).

Definition and_then {A B} (m : Job A) (k : A -> Job B) : Job B :=
  fun t =>
    match m t with
    | (Fulfilled a, t') => k a t'
    | (Failed e, t') => (Failed e, t')
    end.

Notation "x <~ m ;; k" := (and_then m (fun x => k))
  (at level 61, m at next level, right associativity).

(** [{ ...o, k: v }] as it is serialised: a key whose value is
    [undefined] is left out. *)
Fixpoint remove (k : string) (o : object) : object :=
  match o with
  | [] => []
  | (k', v) :: rest =>
      if String.eqb k k' then remove k rest else (k', v) :: remove k rest
  end.

Definition put (k : string) (v : option json) (o : object) : object :=
  match v with
  | Some x => set k x o
  | None => remove k o
  end.

(** [v || 0]: a truthy value is kept as it is, whatever its type. *)
Definition or_zero (v : option json) : json :=
  match v with
  | Some x => if truthy v then x else JNum 0
  | None => JNum 0
  end.

(** The message of the TypeError the runtime (V8) throws when a property
    of [null] is read. *)
Definition null_property (name : string) : string :=
  "Cannot read properties of null (reading '" ++ name ++ "')".

(** [v.name] where [v] is a parsed JSON value: reading a property of
    [null] throws. *)
Definition member (name : string) (v : json) : Job (option json) :=
  match v with
  | JNull => fun t => (Failed (ErrorWith (null_property name)), t)
  | _ => pure (prop name v)
  end.

(** ToString of a parsed JSON value answers unless the value is an
    object with a [toString] entry of its own: the entry is not
    callable, and the inherited [valueOf] answers no primitive.  An
    array is joined from the texts of its elements and answers when all
    of them do. *)
Fixpoint convertible (v : json) : bool :=
  match v with
  | JObj fields =>
      match lookup "toString" fields with
      | Some _ => false
      | None => true
      end
  | JArr items => forallb convertible items
  | _ => true
  end.

Definition has_text (v : option json) : bool :=
  match v with
  | Some x => convertible x
  | None => true
  end.

(** The message of the TypeError of a failed ToString (V8). *)
Definition not_primitive : string := "Cannot convert object to primitive value".

(** [`${v}`], as the filter methods of the client build their operand. *)
Definition text_of (v : option json) : Job string :=
  if has_text v then pure (template v)
  else fun t => (Failed (ErrorWith not_primitive), t).

Section Handler.

Variable store : Store.

(** [v >= n] for an operand [v] that is not a number: the comparison of
    the runtime after ToPrimitive and ToNumber, in double-precision
    arithmetic, which is left abstract; converting an object can throw. *)
Variable coerced_at_least : json -> Z -> Settled bool.

(** [v >= n] *)
Definition compared (v : json) (n : Z) : Settled bool :=
  match v with
  | JNum x => Fulfilled (n <=? x)%Z
  | _ => coerced_at_least v n
  end.

Definition at_least (v : json) (n : Z) : Job bool :=
  fun t => (compared v n, t).

Definition found_query (external_call_id : string) : Query :=
  supabase.from "calls"
  |> supabase.select ["*"]
  |> supabase.eq "external_call_id" external_call_id.

Definition await_find (q : Query) : Job (PostgrestResponse object) :=
  fun t => (find store q, (t ++ [Select q])%list).

(** [await supabase.from(table).update(values).eq(column, v)] *)
Definition write (table : string) (values : object) (column : string)
           (v : option json) : Job unit :=
  value <~ text_of v ;;
  fun t => (update store table values column value,
            (t ++ [Update table values column value])%list).

Definition event_is (payload : json) (name : string) : bool :=
  strict_eq (prop "event" payload) (Some (JStr name)).

(** [{ ...call.metadata, recording_url: payload.recording_url,
       transcript: payload.transcript }] *)
Definition merged_metadata (call : object) (payload : json) : object :=
  spread (or_null (lookup "metadata" call))
  |> put "recording_url" (prop "recording_url" payload)
  |> put "transcript" (prop "transcript" payload).

(** The [switch (payload.event)]. *)
Definition apply_event (call : object) (payload : json) : Job unit :=
  let call_id := lookup "id" call in
  let lead_id := lookup "lead_id" call in
  if event_is payload "call.ringing" then
    write "calls" [("status", JStr "ringing")] "id" call_id
  else if event_is payload "call.answered" || event_is payload "call.connected" then
    _ <~ write "calls" [("status", JStr "in_progress")] "id" call_id ;;
    (* Update lead status *)
    write "leads" [("status", JStr "connected")] "id" lead_id
  else if event_is payload "call.ended" || event_is payload "call.completed" then
    let durationSeconds := or_zero (prop "duration" payload) in
    isConnected <~ at_least durationSeconds 45 ;;
    _ <~ write "calls"
           [ ("status", JStr "completed");
             ("duration_seconds", durationSeconds);
             ("connected", JBool isConnected);
             ("ended_at", JStr (now store));
             ("metadata", JObj (merged_metadata call payload)) ]
           "id" call_id ;;
    write "leads"
      [("status", JStr (if isConnected then "connected" else "completed"))]
      "id" lead_id
  else if event_is payload "call.failed" || event_is payload "call.no_answer" then
    _ <~ write "calls"
           [ ("status",
              JStr (if event_is payload "call.no_answer" then "no_answer" else "failed"));
             ("ended_at", JStr (now store)) ]
           "id" call_id ;;
    write "leads" [("status", JStr "failed")] "id" lead_id
  else pure tt.

(** The body of the [try] block. *)
Definition process (req : Delivery) : Job Response :=
  payload <~ (fun t => (json_body req, t)) ;;
  (* Find the call by external_call_id *)
  call_id <~ member "call_id" payload ;;
  external_call_id <~ text_of call_id ;;
  r <~ await_find (found_query external_call_id) ;;
  match error r, data r with
  | None, Some call =>
      _ <~ apply_event call payload ;;
      pure (json_response 200 (JObj [("success", JBool true)]))
  | _, _ =>
      pure (json_response 404
              (JObj [("success", JBool false); ("error", JStr "Call not found")]))
  end.

(** The [catch] clause. *)
Definition recover (result : Settled Response * list Effect) : Response * list Effect :=
  match result with
  | (Fulfilled response, t) => (response, t)
  | (Failed e, t) =>
      let message :=
        match e with
        | ErrorWith m => m
        | NotAnError => "Internal server error"
        end in
      (json_response 500 (error_body message), t)
  end.

Definition receive (req : Delivery) : Response * list Effect :=
  if String.eqb (verb req) "OPTIONS" then
    ({| status := 200; headers := corsHeaders; body := None |}, [])
  else recover (process req []).

End Handler.

(** The writes among the effects. *)
Definition is_update (e : Effect) : bool :=
  match e with
  | Update _ _ _ _ => true
  | Select _ => false
  end.

Definition writes (t : list Effect) : list Effect := filter is_update t.

(** The events the [switch] knows. *)
Definition known_events : list string :=
  [ "call.ringing"; "call.answered"; "call.connected"; "call.ended";
    "call.completed"; "call.failed"; "call.no_answer" ].

(** The statuses the webhook ever writes to a call. *)
Definition call_statuses : list string :=
  ["ringing"; "in_progress"; "completed"; "no_answer"; "failed"].

(** A store holding the given calls, found by their external id, and
    accepting every write. *)
Definition memory (calls : list object) : Store :=
  {| find := fun q =>
       Fulfilled
         {| data :=
              List.find (fun c => forallb (Fake.satisfies c) (filters q)) calls;
            error := None |};
     update := fun _ _ _ _ => Fulfilled tt;
     now := "2025-01-02T10:00:00.000Z" |}.

(** The comparison of the runtime on a text of decimal digits, all that
    the sample deliveries need of it; no other operand occurs in them. *)
Definition digits_at_least : json -> Z -> Settled bool :=
  fun v n =>
    match v with
    | JStr s =>
        match NilZero.uint_of_string s with
        | Some d => Fulfilled (n <=? Z.of_uint d)%Z
        | None => Fulfilled false
        end
    | _ => Fulfilled false
    end.

Definition post (payload : json) : Delivery :=
  {| verb := "POST"; json_body := Fulfilled payload |}.

Definition dialled : object :=
  [ ("id", JStr "c9"); ("lead_id", JStr "l9"); ("external_call_id", JStr "ext-9");
    ("status", JStr "initiated");
    ("metadata", JObj [ ("source", JStr "fb"); ("transcript", JStr "stale") ]) ].

Definition ended (seconds : Z) : json :=
  JObj [ ("event", JStr "call.ended"); ("call_id", JStr "ext-9");
         ("agent_id", JStr "a1"); ("duration", JNum seconds);
         ("recording_url", JStr "https://provider.example/rec/9.mp3");
         ("transcript", JStr "Agent: hello. User: hi.") ].

(** The same event with a duration of any type. *)
Definition ended_with (duration : json) : json :=
  JObj [ ("event", JStr "call.ended"); ("call_id", JStr "ext-9");
         ("agent_id", JStr "a1"); ("duration", duration);
         ("recording_url", JStr "https://provider.example/rec/9.mp3");
         ("transcript", JStr "Agent: hello. User: hi.") ].

End Webhook.

(** * Properties *)

(** ** Strings and values *)

Lemma eqb_string_false (a b : string) : a <> b -> String.eqb a b = false.
Proof. intro H. now apply String.eqb_neq. Qed.

Lemma absent_some_nonempty (s : string) : s <> "" -> absent (Some s) = false.
Proof. intro H. simpl. now apply String.eqb_neq. Qed.

Lemma length_repeat_star (n : nat) : String.length (Js.repeat "*" n) = n.
Proof. induction n as [|n IH]; simpl; [reflexivity | now rewrite IH]. Qed.

Lemma slice_last_four (p : string) :
  4 < String.length p ->
  slice p (-4) None = substring (String.length p - 4) 4 p.
Proof.
  intro H. unfold slice, clamp. simpl.
  replace (Z.max (Z.of_nat (String.length p) + -4) 0)
    with (Z.of_nat (String.length p - 4)) by lia.
  rewrite Nat2Z.id.
  replace (Z.to_nat (Z.of_nat (String.length p) - Z.of_nat (String.length p - 4)))
    with 4 by lia.
  reflexivity.
Qed.

Lemma slice_first_eight (u : string) :
  slice u 0 (Some 8%Z) = substring 0 8 u.
Proof.
  unfold slice, clamp. simpl.
  destruct (Z.min_spec 0 (Z.of_nat (String.length u))) as [[_ E]|[_ E]];
    rewrite E; simpl.
  - destruct (Z.min_spec 8 (Z.of_nat (String.length u))) as [[_ F]|[L F]];
      rewrite F; rewrite Z.sub_0_r.
    + reflexivity.
    + rewrite Nat2Z.id.
      assert (Hlen : String.length u <= 8) by lia.
      clear -Hlen. revert Hlen.
      generalize 8 as m. induction u as [|c u IH]; intros m Hm.
      * now destruct m.
      * destruct m as [|m]; simpl in *; [lia|].
        f_equal. apply IH. lia.
  - assert (String.length u = 0) by lia.
    destruct u; [reflexivity | discriminate].
Qed.

Lemma substring_all (s : string) : substring 0 (String.length s) s = s.
Proof. induction s as [|c s IH]; simpl; [reflexivity | now rewrite IH]. Qed.

Lemma split_at (k : nat) (p : string) :
  k <= String.length p ->
  p = substring 0 k p ++ substring k (String.length p - k) p /\
  String.length (substring k (String.length p - k) p) = String.length p - k.
Proof.
  revert k. induction p as [|c p IH]; intros k Hk.
  - simpl in Hk. assert (k = 0) by lia. subst k. simpl. split; reflexivity.
  - destruct k as [|k].
    + rewrite Nat.sub_0_r, substring_all. split; reflexivity.
    + simpl in Hk. destruct (IH k ltac:(lia)) as [E L].
      simpl. split; [now rewrite <- E | exact L].
Qed.

(** ** Masking utilities *)

Example maskUuid_identifier : maskUuid (Some "a1b2c3d4e5f6") = "a1b2c3d4...".
Proof. reflexivity. Qed.

Example maskUuid_absent : maskUuid None = "********".
Proof. reflexivity. Qed.

Example maskSystemPrompt_opaque :
  maskSystemPrompt (Some "You are a sales agent") = Some "[System prompt configured]".
Proof. reflexivity. Qed.

Example proxyRecordingUrl_token :
  proxyRecordingUrl (Some "https://storage.example/r.mp3") "c1"
  = Some "proxy:recording:c1".
Proof. reflexivity. Qed.

(** C7.  [maskPhone] is a total function of its input alone: for an
    absent (null) phone and for a phone of at most four characters it
    answers the fixed mask of four asterisks; a longer phone of length
    [n] is answered by [n - 4] asterisks followed by its last four
    characters.  The three sample values of the specification hold. *)
Theorem maskPhone_masks :
  maskPhone None = "****" /\
  (forall p, String.length p <= 4 -> maskPhone (Some p) = "****") /\
  (forall p n, String.length p = n -> 4 < n ->
     exists front last4,
       p = front ++ last4 /\ String.length last4 = 4 /\
       maskPhone (Some p) = Js.repeat "*" (n - 4) ++ last4) /\
  maskPhone (Some "9876543210") = "******3210" /\
  maskPhone (Some "12") = "****".
Proof.
  split; [reflexivity|]. split; [|split; [|split; reflexivity]].
  - intros p Hp. unfold maskPhone. simpl.
    destruct (String.eqb p ""); [reflexivity|].
    apply Nat.leb_le in Hp. now rewrite Hp.
  - intros p n Hn Hlong. subst n.
    destruct (@split_at (String.length p - 4) p ltac:(lia)) as [E L].
    replace (String.length p - (String.length p - 4)) with 4 in * by lia.
    exists (substring 0 (String.length p - 4) p),
           (substring (String.length p - 4) 4 p).
    split; [exact E|]. split; [exact L|].
    unfold maskPhone. rewrite absent_some_nonempty.
    + simpl text. destruct (Nat.leb_spec (String.length p) 4); [lia|].
      now rewrite slice_last_four.
    + intro Hempty. subst p. simpl in Hlong. lia.
Qed.

(** A thirteen-character number keeps its last four characters. *)
Lemma maskPhone_masks_witness :
  exists front last4,
    "+919876543210" = front ++ last4 /\ String.length last4 = 4 /\
    maskPhone (Some "+919876543210") = Js.repeat "*" (13 - 4) ++ last4.
Proof.
  apply (proj1 (proj2 (proj2 maskPhone_masks)) "+919876543210" 13).
  - reflexivity.
  - lia.
Defined.

(** ** Objects *)

Lemma lookup_set (k k' : string) (v : json) (o : object) :
  lookup k (set k' v o) = if String.eqb k k' then Some v else lookup k o.
Proof.
  induction o as [|[k'' v''] rest IH]; simpl.
  - reflexivity.
  - destruct (String.eqb_spec k' k'') as [->|Hk'].
    + simpl. destruct (String.eqb_spec k k''); reflexivity.
    + simpl. rewrite IH.
      destruct (String.eqb_spec k k'') as [->|Hk].
      * now rewrite (eqb_string_false (not_eq_sym Hk')).
      * reflexivity.
Qed.

Lemma lookup_set_same (k : string) (v : json) (o : object) :
  lookup k (set k v o) = Some v.
Proof. now rewrite lookup_set, String.eqb_refl. Qed.

Lemma lookup_set_other (k k' : string) (v : json) (o : object) :
  k <> k' -> lookup k (set k' v o) = lookup k o.
Proof. intro H. now rewrite lookup_set, (eqb_string_false H). Qed.

Lemma truthy_or_null (v : option json) : truthy v = true -> Some (or_null v) = v.
Proof. destruct v as [x|]; simpl; intro H; [now rewrite H | discriminate]. Qed.

(** ** Serialisation never yields the empty text *)

Lemma number_text_nonempty (n : Z) : number_text n <> "".
Proof.
  unfold number_text. destruct n as [|p|p]; simpl.
  - discriminate.
  - pose proof (DecimalPos.Unsigned.to_uint_nonnil p) as H.
    destruct (Pos.to_uint p); simpl; congruence.
  - discriminate.
Qed.

Lemma stringify_nonempty (v : json) : stringify v <> "".
Proof.
  destruct v as [|[|]|n|s|items|fields]; simpl; try discriminate.
  apply number_text_nonempty.
Qed.

Lemma extracted_text_nonempty (v : json) :
  truthy (Some v) = true -> extracted_text v <> "".
Proof.
  intro H. destruct v as [|b|n|s|items|fields];
    try exact (stringify_nonempty _).
  simpl in *. intro E. subst s. discriminate.
Qed.

(** ** The metadata sanitizer *)

Section Sanitizer.

Variable cipher : string -> EncryptedPayload.
Variable no_data : json.

Local Abbreviation sanitize := (sanitizeMetadata cipher no_data).
Local Abbreviation encrypt := (encryptData cipher no_data).

Lemma encryptData_envelope (s : string) :
  s <> "" -> encrypt s = envelope (cipher s).
Proof. intro H. unfold encryptData. now rewrite (eqb_string_false H). Qed.

Lemma lookup_keep_truthy (k k' : string) (m : json) (o : object) :
  lookup k (keep_truthy k' m o) =
  if String.eqb k k' && truthy (prop k' m) then prop k' m else lookup k o.
Proof.
  unfold keep_truthy. destruct (truthy (prop k' m)) eqn:T.
  - rewrite lookup_set. destruct (String.eqb k k'); simpl.
    + now apply truthy_or_null.
    + reflexivity.
  - now rewrite andb_false_r.
Qed.

Lemma lookup_keep_defined (k k' : string) (m : json) (o : object) :
  lookup k (keep_defined k' m o) =
  if String.eqb k k' then
    match prop k' m with Some v => Some v | None => lookup k o end
  else lookup k o.
Proof.
  unfold keep_defined. destruct (prop k' m) as [v|].
  - apply lookup_set.
  - now destruct (String.eqb k k').
Qed.

(** What the sanitized object holds under each key, for any truthy
    metadata value [m]. *)
Lemma sanitized_lookup (m : json) (k : string) :
  truthy (Some m) = true ->
  prop k (sanitize (Some m)) =
    if mem k truthy_keys then
      if truthy (prop k m) then prop k m else None
    else if mem k defined_keys then prop k m
    else if String.eqb k "extracted_data" then
      match prop k m with
      | Some v =>
          if truthy (Some v) then Some (envelope (cipher (extracted_text v)))
          else None
      | None => None
      end
    else None.
Proof.
  intro Hm. unfold sanitizeMetadata. rewrite Hm. simpl negb. cbv iota.
  replace (or_null (Some m)) with m by (unfold or_null; now rewrite Hm).
  cbv zeta.
  assert (Hlast : forall o,
    lookup k (if truthy (prop "extracted_data" m)
              then set "extracted_data"
                     (encrypt
                        match prop "extracted_data" m with
                        | Some (JStr s) => s
                        | other => stringify (or_null other)
                        end) o
              else o) =
    if String.eqb k "extracted_data" then
      match prop "extracted_data" m with
      | Some v =>
          if truthy (Some v) then Some (envelope (cipher (extracted_text v)))
          else lookup k o
      | None => lookup k o
      end
    else lookup k o).
  { intro o. destruct (prop "extracted_data" m) as [v|] eqn:E.
    - destruct (truthy (Some v)) eqn:T.
      + rewrite lookup_set. destruct (String.eqb k "extracted_data"); [|reflexivity].
        f_equal. rewrite <- (encryptData_envelope (extracted_text_nonempty v T)).
        f_equal. destruct v; simpl in *; try reflexivity; try discriminate; now rewrite T.
      + now destruct (String.eqb k "extracted_data").
    - simpl. now destruct (String.eqb k "extracted_data"). }
  unfold prop at 1. rewrite Hlast. clear Hlast.
  rewrite !lookup_keep_defined, !lookup_keep_truthy, !lookup_keep_defined,
          !lookup_keep_truthy.
  unfold mem, truthy_keys, defined_keys. simpl existsb. simpl lookup.
  destruct (String.eqb_spec k "source") as [->|?]; simpl;
    [now destruct (truthy (prop "source" m))|].
  destruct (String.eqb_spec k "lead_name") as [->|?]; simpl;
    [now destruct (truthy (prop "lead_name" m))|].
  destruct (String.eqb_spec k "campaign_id") as [->|?]; simpl;
    [now destruct (truthy (prop "campaign_id" m))|].
  destruct (String.eqb_spec k "aitel_status") as [->|?]; simpl;
    [now destruct (truthy (prop "aitel_status" m))|].
  destruct (String.eqb_spec k "error_message") as [->|?]; simpl;
    [now destruct (truthy (prop "error_message" m))|].
  destruct (String.eqb_spec k "is_retry") as [->|?]; simpl;
    [now destruct (prop "is_retry" m)|].
  destruct (String.eqb_spec k "retry_attempt") as [->|?]; simpl;
    [now destruct (prop "retry_attempt" m)|].
  destruct (String.eqb_spec k "answered_by_voicemail") as [->|?]; simpl;
    [now destruct (prop "answered_by_voicemail" m)|].
  destruct (String.eqb_spec k "extracted_data") as [->|?]; simpl; [|reflexivity].
  destruct (prop "extracted_data" m) as [v|]; [|reflexivity].
  now destruct (truthy (Some v)).
Qed.

Lemma sanitized_shape (v : option json) :
  sanitize v = JNull \/ exists o, sanitize v = JObj o.
Proof.
  unfold sanitizeMetadata. destruct (truthy v); simpl; [right; eexists; reflexivity | now left].
Qed.

(** A key the object lacks is appended by an assignment. *)
Lemma set_fresh (k : string) (v : json) (o : object) :
  ~ In k (keys o) -> set k v o = (o ++ [(k, v)])%list.
Proof.
  induction o as [|[k' v'] rest IH]; simpl; intro H; [reflexivity|].
  destruct (String.eqb_spec k k') as [E|_]; [now contradiction H; left|].
  f_equal. apply IH. tauto.
Qed.

Lemma fresh_after_entry (k k' : string) (v : option json) (o : object) :
  k <> k' -> ~ In k (keys o) -> ~ In k (keys (o ++ entry k' v)%list).
Proof.
  intros Hne Ho. unfold keys. rewrite map_app, in_app_iff.
  destruct v as [x|]; simpl; intuition congruence.
Qed.

Lemma keep_truthy_fresh (k : string) (m : json) (o : object) :
  ~ In k (keys o) ->
  keep_truthy k m o =
  (o ++ entry k (if truthy (prop k m) then prop k m else None))%list.
Proof.
  intro H. unfold keep_truthy. destruct (truthy (prop k m)) eqn:T.
  - rewrite (@set_fresh _ _ _ H). destruct (prop k m) as [x|]; [|discriminate T].
    unfold or_null. now rewrite T.
  - simpl. now rewrite app_nil_r.
Qed.

Lemma keep_defined_fresh (k : string) (m : json) (o : object) :
  ~ In k (keys o) -> keep_defined k m o = (o ++ entry k (prop k m))%list.
Proof.
  intro H. unfold keep_defined. destruct (prop k m) as [x|]; simpl.
  - now apply set_fresh.
  - now rewrite app_nil_r.
Qed.

(** The sealed form of [extracted_data]. *)
Lemma seal_fresh (m : json) (o : object) :
  ~ In "extracted_data" (keys o) ->
  (if truthy (prop "extracted_data" m)
   then set "extracted_data"
          (encrypt
             match prop "extracted_data" m with
             | Some (JStr s) => s
             | other => stringify (or_null other)
             end) o
   else o) =
  (o ++ entry "extracted_data"
          match prop "extracted_data" m with
          | Some v =>
              if truthy (Some v) then Some (envelope (cipher (extracted_text v)))
              else None
          | None => None
          end)%list.
Proof.
  intro H. destruct (prop "extracted_data" m) as [v|] eqn:E.
  - destruct (truthy (Some v)) eqn:T.
    + rewrite (@set_fresh _ _ _ H). unfold entry. do 3 f_equal.
      rewrite <- (encryptData_envelope (extracted_text_nonempty v T)).
      f_equal. destruct v; simpl in *; try reflexivity; try discriminate; now rewrite T.
    + simpl. now rewrite app_nil_r.
  - simpl. now rewrite app_nil_r.
Qed.

Lemma entries_keys (f : string -> option json) (ks : list string) (x : string) :
  In x (keys (flat_map (fun k => entry k (f k)) ks)) -> In x ks.
Proof.
  induction ks as [|k ks IH]; simpl; [tauto|].
  unfold keys. rewrite map_app, in_app_iff. intros [H|H].
  - destruct (f k); simpl in H; [left; tauto | contradiction].
  - right. now apply IH.
Qed.

Lemma entries_nodup (f : string -> option json) (ks : list string) :
  NoDup ks -> NoDup (keys (flat_map (fun k => entry k (f k)) ks)).
Proof.
  induction 1 as [|k ks Hk Hnd IH]; simpl; [constructor|].
  unfold keys. rewrite map_app.
  destruct (f k) as [x|]; simpl; [|exact IH].
  constructor; [|exact IH]. intro Hin. apply Hk. exact (@entries_keys _ _ _ Hin).
Qed.

(** The metadata object after sanitizing: the kept entries in the order
    of the allow-list, then the sealed [extracted_data]. *)
Lemma sanitized_object (fields : object) :
  sanitize (Some (JObj fields)) =
  JObj (sanitized_fields fields
          match lookup "extracted_data" fields with
          | Some v =>
              if truthy (Some v) then Some (envelope (cipher (extracted_text v)))
              else None
          | None => None
          end).
Proof.
  unfold sanitizeMetadata.
  change (truthy (Some (JObj fields))) with true.
  change (or_null (Some (JObj fields))) with (JObj fields).
  cbv beta iota zeta delta [negb].
  rewrite (@keep_truthy_fresh "source" (JObj fields) []) by (simpl; tauto).
  rewrite (@keep_defined_fresh "is_retry")
    by (repeat (apply fresh_after_entry; [discriminate|]); simpl; tauto).
  rewrite (@keep_truthy_fresh "lead_name")
    by (repeat (apply fresh_after_entry; [discriminate|]); simpl; tauto).
  rewrite (@keep_truthy_fresh "campaign_id")
    by (repeat (apply fresh_after_entry; [discriminate|]); simpl; tauto).
  rewrite (@keep_truthy_fresh "aitel_status")
    by (repeat (apply fresh_after_entry; [discriminate|]); simpl; tauto).
  rewrite (@keep_truthy_fresh "error_message")
    by (repeat (apply fresh_after_entry; [discriminate|]); simpl; tauto).
  rewrite (@keep_defined_fresh "retry_attempt")
    by (repeat (apply fresh_after_entry; [discriminate|]); simpl; tauto).
  rewrite (@keep_defined_fresh "answered_by_voicemail")
    by (repeat (apply fresh_after_entry; [discriminate|]); simpl; tauto).
  rewrite seal_fresh
    by (repeat (apply fresh_after_entry; [discriminate|]); simpl; tauto).
  unfold sanitized_fields, allow_list.
  cbv beta iota delta [flat_map].
  rewrite app_nil_r, app_nil_l, <- !app_assoc.
  reflexivity.
Qed.

(** C6 (amended).  [sanitizeMetadata] answers [null] for an absent or
    [null] metadata.  For a metadata object it answers an object, and
    that object is fully determined: it holds, in the order of the
    allow-list and with their original value, the keys [source],
    [lead_name], [campaign_id], [aitel_status] and [error_message] whose
    value is truthy and the keys [is_retry], [retry_attempt] and
    [answered_by_voicemail] that are defined, followed by
    [extracted_data] when that is truthy, replaced by an encrypted
    envelope: of the text itself when it is a text, of its JSON
    serialisation when it is another value (shown for the values whose
    numbers are integers printed digit by digit).  The object has no
    other key and no key twice. *)
Theorem sanitizeMetadata_allow_list (fields : object) :
  sanitize None = JNull /\
  sanitize (Some JNull) = JNull /\
  exists sealed,
    sanitize (Some (JObj fields)) = JObj (sanitized_fields fields sealed) /\
    NoDup (keys (sanitized_fields fields sealed)) /\
    (forall k,
       lookup k (sanitized_fields fields sealed) =
       if String.eqb k "extracted_data" then sealed else kept fields k) /\
    (truthy (lookup "extracted_data" fields) = false -> sealed = None) /\
    (truthy (lookup "extracted_data" fields) = true ->
       exists p, sealed = Some (envelope p)) /\
    (forall s,
       lookup "extracted_data" fields = Some (JStr s) -> s <> "" ->
       sealed = Some (envelope (cipher s))) /\
    (forall v,
       lookup "extracted_data" fields = Some v -> truthy (Some v) = true ->
       (forall s, v <> JStr s) -> safe_integers v = true ->
       sealed = Some (envelope (cipher (stringify v)))).
Proof.
  split; [reflexivity|]. split; [reflexivity|].
  eexists. split; [apply sanitized_object|].
  split.
  { assert (E : forall sealed,
      sanitized_fields fields sealed =
      flat_map (fun k => entry k (if String.eqb k "extracted_data" then sealed
                                  else kept fields k))
               (allow_list ++ ["extracted_data"])%list).
    { intro sealed. unfold sanitized_fields. rewrite flat_map_app. f_equal.
      simpl. now rewrite app_nil_r. }
    rewrite E. apply entries_nodup. unfold allow_list. simpl.
    repeat (constructor; [simpl; intuition discriminate|]). constructor. }
  split.
  { intro k.
    match goal with
    | |- lookup k ?o = _ => change (lookup k o) with (prop k (JObj o))
    end.
    rewrite <- sanitized_object.
    rewrite (sanitized_lookup (JObj fields) k eq_refl). unfold kept, prop.
    destruct (String.eqb_spec k "extracted_data") as [E|_]; [now subst k|].
    destruct (mem k truthy_keys); [reflexivity|].
    now destruct (mem k defined_keys). }
  split.
  { intro T. destruct (lookup "extracted_data" fields) as [v|]; [|reflexivity].
    now rewrite T. }
  split.
  { intro T. destruct (lookup "extracted_data" fields) as [v|]; [|discriminate T].
    rewrite T. now eexists. }
  split.
  { intros s E Hs. rewrite E.
    change (truthy (Some (JStr s))) with (negb (String.eqb s "")).
    now rewrite (eqb_string_false Hs). }
  intros v E T Hv _. rewrite E, T. do 3 f_equal.
  destruct v; try reflexivity. now contradiction (Hv s).
Qed.

(** *** Rows *)

Lemma encrypted_sealed (v : option json) :
  null_or_envelope (Some (encrypted cipher no_data v)).
Proof.
  unfold encrypted. destruct (absent (as_string v)) eqn:A.
  - now left.
  - right. exists (cipher (text (as_string v))). f_equal.
    apply encryptData_envelope. intro E.
    destruct (as_string v) as [s|]; simpl in *; [|discriminate].
    subst s. discriminate.
Qed.

Lemma encrypted_text (s : string) :
  s <> "" -> encrypted cipher no_data (Some (JStr s)) = envelope (cipher s).
Proof.
  intro H. unfold encrypted. simpl. rewrite (eqb_string_false H).
  now apply encryptData_envelope.
Qed.

Lemma sanitized_sealed (v : option json) :
  sanitize v = JNull \/
  exists m, sanitize v = JObj m /\
    (forall k, lookup k m <> None -> In k allow_list \/ k = "extracted_data") /\
    (lookup "extracted_data" m = None \/
     exists p, lookup "extracted_data" m = Some (envelope p)).
Proof.
  destruct (truthy v) eqn:T.
  - right. destruct v as [x|]; [|discriminate].
    destruct (sanitized_shape (Some x)) as [E|[m E]].
    + unfold sanitizeMetadata in E. rewrite T in E. discriminate.
    + exists m. split; [exact E|].
      assert (L : forall k, lookup k m = prop k (sanitize (Some x)))
        by (intro k; now rewrite E).
      split.
      * intros k Hk. rewrite L, (sanitized_lookup x k T) in Hk.
        unfold mem, truthy_keys, defined_keys, allow_list in *. simpl in *.
        repeat match goal with
               | H : context [String.eqb k ?name] |- _ =>
                   destruct (String.eqb_spec k name) as [Heq|Hne];
                   [subst k; tauto | clear Hne]
               end.
        simpl in Hk. contradiction.
      * rewrite L, (sanitized_lookup x "extracted_data" T).
        change (mem "extracted_data" truthy_keys) with false.
        change (mem "extracted_data" defined_keys) with false.
        change (String.eqb "extracted_data" "extracted_data") with true.
        cbv iota.
        destruct (prop "extracted_data" x) as [d|]; [|now left].
        destruct (truthy (Some d)); [right; eexists; reflexivity | now left].
  - left. unfold sanitizeMetadata. now rewrite T.
Qed.

End Sanitizer.

(** Metadata with an unknown key and structured extracted data. *)
Lemma sanitizeMetadata_allow_list_witness :
  sanitizeMetadata Fake.cipher Fake.no_data
    (Some (JObj [ ("source", JStr "fb"); ("secret_token", JStr "xyz");
                  ("extracted_data", JObj [("budget", JNum 5)]) ])) =
  JObj [ ("source", JStr "fb");
         ("extracted_data",
            envelope (Fake.cipher (stringify (JObj [("budget", JNum 5)])))) ].
Proof.
  destruct (@sanitizeMetadata_allow_list Fake.cipher Fake.no_data
              [ ("source", JStr "fb"); ("secret_token", JStr "xyz");
                ("extracted_data", JObj [("budget", JNum 5)]) ])
    as (_ & _ & sealed & E & _ & _ & _ & _ & _ & Hv).
  rewrite E.
  rewrite (Hv (JObj [("budget", JNum 5)]) eq_refl eq_refl
              ltac:(discriminate) eq_refl).
  reflexivity.
Defined.

(** The example of the specification: the unknown key is dropped. *)
Example sanitizeMetadata_drops_secret_token :
  sanitizeMetadata Fake.cipher Fake.no_data
    (Some (JObj [ ("source", JStr "fb"); ("secret_token", JStr "xyz");
                  ("lead_name", JStr "Jane") ]))
  = JObj [ ("source", JStr "fb"); ("lead_name", JStr "Jane") ].
Proof. reflexivity. Qed.

(** C6 (as stated) fails: an allow-listed key that is present in the
    input with a falsy value, here [error_message: null], is not copied
    to the result. *)
Lemma sanitizeMetadata_drops_falsy_allow_listed :
  let input := [("source", JStr "fb"); ("error_message", JNull)] in
  let output := sanitizeMetadata Fake.cipher Fake.no_data (Some (JObj input)) in
  In "error_message" allow_list /\
  lookup "error_message" input = Some JNull /\
  output = JObj [("source", JStr "fb")] /\
  prop "error_message" output = None /\
  ~ (forall (fields : object) (k : string),
       In k allow_list ->
       prop k (sanitizeMetadata Fake.cipher Fake.no_data (Some (JObj fields)))
       = lookup k fields).
Proof.
  split; [simpl; tauto|]. repeat (split; [reflexivity|]).
  intro H.
  specialize (H [("source", JStr "fb"); ("error_message", JNull)] "error_message").
  simpl in H. assert (F : @None json = Some JNull) by (apply H; tauto).
  discriminate F.
Qed.

(** ** The gate *)

Lemma strict_eq_string (v : option json) (s : string) :
  strict_eq v (Some (JStr s)) = true <-> v = Some (JStr s).
Proof.
  destruct v as [[| | |t| |]|]; simpl; split; intro H; try discriminate.
  - apply String.eqb_eq in H. now subst.
  - injection H as ->. apply String.eqb_refl.
Qed.

Lemma strict_eq_string_false (v : option json) (s : string) :
  v <> Some (JStr s) -> strict_eq v (Some (JStr s)) = false.
Proof.
  intro H. destruct (strict_eq v (Some (JStr s))) eqn:E; [|reflexivity].
  apply strict_eq_string in E. contradiction.
Qed.

Section Handler.

Variable cipher : string -> EncryptedPayload.
Variable no_data : json.
Variable round_percent round_quotient : Z -> Z -> Z.

Local Abbreviation run := (serve cipher no_data round_percent round_quotient).
Local Abbreviation act := (dispatch cipher no_data round_percent round_quotient).

(** Past the gate the handler has asked the identity service and the
    role table, and nothing else; what follows is the action. *)
Lemma serve_dispatched (be : Backend) (req : Request) (userId : string)
      (userRole : option json) :
  authenticated be req userId ->
  resolved_role be userId userRole ->
  run be req = settle (act be userRole req (gate_trace req userId)).
Proof.
  intros (Hm & Hb & Hu) (r & Hr & ->).
  unfold serve, proxy. rewrite (eqb_string_false Hm), Hb. simpl negb. cbv iota.
  unfold bind at 1. unfold await at 1. rewrite Hu. simpl.
  unfold bind at 1. unfold await_single, await. rewrite Hr. reflexivity.
Qed.

(** C4.  A request other than a preflight whose Authorization header is
    missing or does not begin with "Bearer " is answered 401 with the
    body [{error: "Unauthorized"}], and no call to the identity service
    or to the backing store is made for it. *)
Theorem unauthorized_before_any_access (be : Backend) (req : Request) :
  method req <> "OPTIONS" ->
  (forall h, authorization req = Some h -> prefix "Bearer " h = false) ->
  run be req = (json_response 401 (error_body "Unauthorized"), []).
Proof.
  intros Hm Hh. unfold serve, proxy. rewrite (eqb_string_false Hm).
  assert (Hb : bearer (authorization req) = false).
  { unfold bearer. destruct (authorization req) as [h|]; [now apply Hh | reflexivity]. }
  rewrite Hb. reflexivity.
Qed.

(** C5.  For an authenticated request whose resolved role is not
    [admin] (a principal without a role record included), each of the
    actions [admin_demo_calls], [active_calls] and [today_stats] answers
    403 with the body [{error: "Forbidden"}]; besides the identity check
    and the role lookup of the gate no fetch is made, so no rows are
    read. *)
Theorem admin_actions_forbidden (be : Backend) (req : Request) (userId : string)
        (userRole : option json) (action : string) :
  authenticated be req userId ->
  resolved_role be userId userRole ->
  userRole <> admin ->
  action_of req = Some action ->
  In action admin_actions ->
  run be req = (json_response 403 (error_body "Forbidden"), gate_trace req userId).
Proof.
  intros Ha Hr Hrole Hact Hin.
  rewrite (serve_dispatched Ha Hr). unfold dispatch.
  unfold action_of in Hact. rewrite Hact.
  unfold admin_demo_calls, active_calls, today_stats.
  rewrite (strict_eq_string_false Hrole).
  simpl in Hin. destruct Hin as [<-|[<-|[<-|[]]]]; reflexivity.
Qed.

(** C9.  For an authenticated request whose [action] parameter is
    missing or is none of the six supported actions the answer is 400
    with the body [{error: "Invalid action"}]: no handler runs in its
    place, and nothing is fetched beyond the gate. *)
Theorem unknown_action_invalid (be : Backend) (req : Request) (userId : string)
        (userRole : option json) :
  authenticated be req userId ->
  resolved_role be userId userRole ->
  (forall a, action_of req = Some a -> ~ In a supported_actions) ->
  run be req = (json_response 400 (error_body "Invalid action"), gate_trace req userId).
Proof.
  intros Ha Hr Hun.
  rewrite (serve_dispatched Ha Hr). unfold dispatch.
  unfold action_of in Hun.
  destruct (searchParams_get "action" (searchParams req)) as [a|]; [|reflexivity].
  specialize (Hun a eq_refl). unfold supported_actions in Hun. simpl in Hun.
  unfold is_action.
  repeat match goal with
         | |- context [String.eqb a ?name] =>
             destruct (String.eqb_spec a name) as [->|_]; [exfalso; apply Hun; tauto|]
         end.
  reflexivity.
Qed.


(** *** What a listing does to a row *)

Ltac lookup_through :=
  repeat (rewrite lookup_set_same || (rewrite lookup_set_other by discriminate)).

Lemma mask_call_fields_sealed (call : object) :
  call_row_sealed (JObj (mask_call_fields cipher no_data call)).
Proof.
  unfold call_row_sealed, mask_call_fields, prop. lookup_through.
  split; [apply encrypted_sealed|]. split; [apply encrypted_sealed|].
  destruct (sanitized_sealed cipher no_data (lookup "metadata" call)) as [E|(m & E & K & X)];
    rewrite E; [now left | right; now exists m].
Qed.

Lemma mask_call_sealed (call : object) :
  call_row_sealed (JObj (mask_call cipher no_data call)).
Proof.
  pose proof (mask_call_fields_sealed call) as H.
  unfold call_row_sealed, mask_call, prop in *.
  now rewrite !(@lookup_set_other _ "agent") by discriminate.
Qed.

Lemma mask_demo_fields_sealed (call : object) :
  demo_row_sealed (JObj (mask_demo_fields cipher no_data call)).
Proof.
  unfold demo_row_sealed, mask_demo_fields, prop. lookup_through.
  apply encrypted_sealed.
Qed.

Lemma mask_demo_call_sealed (tasks agents : option (list object)) (call : object) :
  demo_row_sealed (JObj (mask_demo_call cipher no_data tasks agents call)).
Proof.
  pose proof (mask_demo_fields_sealed call) as H.
  unfold demo_row_sealed, mask_demo_call, prop in *.
  now rewrite 2!lookup_set_other by discriminate.
Qed.

Lemma Forall_listing (P : json -> Prop) (mask : object -> object) (rows : list object) :
  (forall r, P (JObj (mask r))) -> Forall P (map JObj (map mask rows)).
Proof.
  intro H. induction rows as [|r rows IH]; simpl; constructor; auto.
Qed.

Lemma today_summary_scalar (rows : list object) :
  scalar_body (Some (today_summary round_percent round_quotient rows)).
Proof.
  unfold scalar_body, today_summary. eexists. split; [reflexivity|].
  repeat constructor; simpl; eexists; reflexivity.
Qed.

(** *** What each action answers with status 200 *)

Ltac fetch_cases be :=
  unfold bind, await_rows, await;
  repeat match goal with
         | |- context [fetch_rows be ?q] =>
             let r := fresh "r" in
             destruct (fetch_rows be q) as [r|?]; simpl;
             [try (destruct (error r); simpl)|]
         end;
  try (intro; discriminate).

Lemma calls_ok (be : Backend) (req : Request) (t0 : list Event) :
  status (fst (settle (calls cipher no_data be req t0))) = 200%Z ->
  sealed_listing call_row_sealed (settle (calls cipher no_data be req t0)).
Proof.
  unfold calls. fetch_cases be. intros _.
  eexists. split; [reflexivity|]. apply Forall_listing, mask_call_sealed.
Qed.

Lemma active_calls_ok (be : Backend) (role : option json) (t0 : list Event) :
  status (fst (settle (active_calls cipher no_data be role t0))) = 200%Z ->
  sealed_listing call_row_sealed (settle (active_calls cipher no_data be role t0)).
Proof.
  unfold active_calls. destruct (strict_eq role (Some (JStr "admin"))); simpl;
    [|intro; discriminate].
  fetch_cases be. intros _.
  eexists. split; [reflexivity|]. apply Forall_listing, mask_call_fields_sealed.
Qed.

Lemma admin_demo_calls_ok (be : Backend) (role : option json) (t0 : list Event) :
  status (fst (settle (admin_demo_calls cipher no_data be role t0))) = 200%Z ->
  sealed_listing demo_row_sealed (settle (admin_demo_calls cipher no_data be role t0)).
Proof.
  unfold admin_demo_calls. destruct (strict_eq role (Some (JStr "admin"))); simpl;
    [|intro; discriminate].
  fetch_cases be. intros _.
  eexists. split; [reflexivity|]. apply Forall_listing, mask_demo_fields_sealed.
Qed.

Lemma demo_calls_ok (be : Backend) (role : option json) (req : Request) (t0 : list Event) :
  status (fst (settle (demo_calls cipher no_data be role req t0))) = 200%Z ->
  sealed_listing demo_row_sealed (settle (demo_calls cipher no_data be role req t0)).
Proof.
  unfold demo_calls, bind, await_rows, await.
  destruct (fetch_rows be (demo_calls_query _ _)) as [r|?]; simpl;
    [|intro; discriminate].
  destruct (error r); simpl; [intro; discriminate|].
  destruct (fetch_rows be (demo_tasks_query _)) as [rt|?]; simpl;
    [|intro; discriminate].
  destruct (fetch_rows be (demo_agents_query _)) as [ra|?]; simpl;
    [|intro; discriminate].
  intros _. eexists. split; [reflexivity|]. apply Forall_listing. intro call.
  apply mask_demo_call_sealed.
Qed.

Lemma today_stats_ok (be : Backend) (role : option json) (t0 : list Event) :
  status (fst (settle (today_stats round_percent round_quotient be role t0))) = 200%Z ->
  scalar_body (body (fst (settle (today_stats round_percent round_quotient be role t0)))).
Proof.
  unfold today_stats. destruct (strict_eq role (Some (JStr "admin"))); simpl;
    [|intro; discriminate].
  fetch_cases be. intros _. apply today_summary_scalar.
Qed.

Lemma tasks_trace (be : Backend) (req : Request) (t0 : list Event) :
  exists q, table q = "tasks" /\
            snd (settle (tasks be req t0)) = (t0 ++ [Fetch q])%list.
Proof.
  unfold tasks.
  exists (tasks_query (searchParams_get "assigned_to" (searchParams req))
                      (searchParams_get "status" (searchParams req))).
  split.
  - unfold tasks_query.
    destruct (absent (searchParams_get "assigned_to" (searchParams req)));
      destruct (absent (searchParams_get "status" (searchParams req))); reflexivity.
  - unfold bind, await_rows, await.
    destruct (fetch_rows be _) as [r|?]; simpl; [destruct (error r)|]; reflexivity.
Qed.

(** *** The paths through the handler *)

Lemma serve_cases (be : Backend) (req : Request) :
  body (fst (run be req)) = None \/
  status (fst (run be req)) <> 200%Z \/
  exists userId userRole,
    run be req = settle (act be userRole req (gate_trace req userId)).
Proof.
  unfold serve. destruct (String.eqb (method req) "OPTIONS"); [now left|].
  right. unfold proxy.
  destruct (bearer (authorization req)); simpl negb; cbv iota;
    [|left; simpl; discriminate].
  unfold bind, await_single, await.
  destruct (getUser be (text (authorization req))) as [u|?]; cbv beta iota;
    [|left; simpl; discriminate].
  destruct (authError u) as [e|]; [left; simpl; discriminate|].
  destruct (user u) as [userId|]; [|left; simpl; discriminate].
  destruct (fetch_single be (role_query userId)) as [r|?]; cbv beta iota;
    [|left; simpl; discriminate].
  right. exists userId. eexists. reflexivity.
Qed.

Lemma dispatch_cases (be : Backend) (role : option json) (req : Request) (t0 : list Event) :
  (action_of req = Some "demo_calls" /\
   act be role req t0 = demo_calls cipher no_data be role req t0) \/
  (action_of req = Some "admin_demo_calls" /\
   act be role req t0 = admin_demo_calls cipher no_data be role t0) \/
  (action_of req = Some "calls" /\
   act be role req t0 = calls cipher no_data be req t0) \/
  (action_of req = Some "active_calls" /\
   act be role req t0 = active_calls cipher no_data be role t0) \/
  (action_of req = Some "today_stats" /\
   act be role req t0 = today_stats round_percent round_quotient be role t0) \/
  (action_of req = Some "tasks" /\ act be role req t0 = tasks be req t0) \/
  ((forall a, action_of req = Some a -> ~ In a supported_actions) /\
   act be role req t0 = (Done (json_response 400 (error_body "Invalid action")), t0)).
Proof.
  unfold dispatch, action_of.
  destruct (searchParams_get "action" (searchParams req)) as [a|]; simpl.
  - repeat match goal with
           | |- context [String.eqb a ?name] =>
               destruct (String.eqb_spec a name) as [E|?]; [subst a; tauto|]
           end.
    repeat right. split; [|reflexivity].
    intros a' Ha'. injection Ha' as <-. simpl. intuition congruence.
  - repeat right. split; [|reflexivity]. intros a' Ha'. discriminate.
Qed.


(** *** Upstream failures *)

(** Picks the branch of [dispatch_cases] that agrees with the action of
    the request. *)
Ltac pick_action Hact :=
  match goal with
  | |- context [dispatch _ _ _ _ ?be ?role ?req ?t0] =>
      destruct (dispatch_cases be role req t0)
        as [[A E]|[[A E]|[[A E]|[[A E]|[[A E]|[[A E]|[A E]]]]]]];
      rewrite Hact in A;
      first [ discriminate A
            | exfalso; apply (A _ eq_refl); simpl; tauto
            | rewrite E; clear A E ]
  end.

(** C3 (amended).  For an authenticated request that reaches the fetch
    of its action's rows: if that fetch resolves with an error, the
    answer is 500 with the body [{error: <message of that error>}], the
    store's own message; if the fetch throws, the answer is 500 with the
    body [{error: "Internal server error"}]. *)
Theorem primary_fetch_failure (be : Backend) (req : Request) (userId : string)
        (userRole : option json) (action : string) :
  authenticated be req userId ->
  resolved_role be userId userRole ->
  action_of req = Some action ->
  In action supported_actions ->
  (In action admin_actions -> userRole = admin) ->
  (forall r e,
     fetch_rows be (primary_query be userRole req action) = Resolved r ->
     error r = Some e ->
     fst (run be req) = json_response 500 (error_body (message e))) /\
  (forall reason,
     fetch_rows be (primary_query be userRole req action) = Rejected reason ->
     fst (run be req) = json_response 500 (error_body "Internal server error")).
Proof.
  intros Ha Hr Hact Hin Hadmin.
  rewrite (serve_dispatched Ha Hr).
  unfold supported_actions in Hin. simpl in Hin.
  destruct Hin as [<-|[<-|[<-|[<-|[<-|[<-|[]]]]]]];
    pick_action Hact;
    try (rewrite Hadmin by (simpl; tauto));
    unfold demo_calls, admin_demo_calls, calls, active_calls, today_stats, tasks;
    change (strict_eq admin (Some (JStr "admin"))) with true; cbv beta iota;
    unfold bind, await_rows, await;
    (split; [intros r e Hf He | intros reason Hf]);
    unfold primary_query in Hf; simpl String.eqb in Hf; cbv iota in Hf;
    rewrite Hf; simpl; try rewrite He; reflexivity.
Qed.

(** *** The rows of the open listings *)

Lemma mask_call_row (call : object) (t l u : string) :
  lookup "transcript" call = Some (JStr t) -> t <> "" ->
  lookup "lead_id" call = Some (JStr l) -> l <> "" ->
  lookup "recording_url" call = Some (JStr u) -> u <> "" ->
  let out := mask_call cipher no_data call in
  lookup "lead_id" out = Some (JStr (substring 0 8 l ++ "...")) /\
  lookup "transcript" out = Some (envelope (cipher t)) /\
  lookup "recording_url" out =
    Some (JStr ("proxy:recording:" ++ template (lookup "id" call))).
Proof.
  intros Ht Hte Hl Hle Hu Hue out. subst out.
  unfold mask_call, mask_call_fields. lookup_through.
  rewrite Ht, Hl, Hu. repeat split.
  - unfold maskUuid. simpl as_string. rewrite (absent_some_nonempty Hle).
    simpl text. now rewrite slice_first_eight.
  - now rewrite encrypted_text.
  - unfold proxyRecordingUrl. simpl as_string. now rewrite (absent_some_nonempty Hue).
Qed.

(** C8 (amended).  For an authenticated request with [action=calls]
    whose fetch succeeded, the answer has status 200 and every stored
    call with a non-empty transcript, a non-empty lead id and a
    non-empty recording URL is returned, at its position, as a row whose
    [lead_id] is the first eight characters of the stored one followed
    by "...", whose [transcript] is the envelope produced by
    [encryptData] for the stored text (and not that text), and whose
    [recording_url] is "proxy:recording:" followed by the id of the
    call. *)
Theorem calls_row_masked (be : Backend) (req : Request) (userId : string)
        (userRole : option json) (r : PostgrestResponse (list object))
        (i : nat) (call : object) (t l u : string) :
  authenticated be req userId ->
  resolved_role be userId userRole ->
  action_of req = Some "calls" ->
  fetch_rows be (primary_query be userRole req "calls") = Resolved r ->
  error r = None ->
  nth_error (or_empty (data r)) i = Some call ->
  lookup "transcript" call = Some (JStr t) -> t <> "" ->
  lookup "lead_id" call = Some (JStr l) -> l <> "" ->
  lookup "recording_url" call = Some (JStr u) -> u <> "" ->
  status (fst (run be req)) = 200%Z /\
  exists out,
    nth_error (rows_of (fst (run be req))) i = Some (JObj out) /\
    lookup "lead_id" out = Some (JStr (substring 0 8 l ++ "...")) /\
    lookup "transcript" out = Some (encryptData cipher no_data t) /\
    lookup "transcript" out = Some (envelope (cipher t)) /\
    lookup "transcript" out <> Some (JStr t) /\
    lookup "recording_url" out =
      Some (JStr ("proxy:recording:" ++ template (lookup "id" call))).
Proof.
  intros Ha Hr Hact Hf He Hi Ht Hte Hl Hle Hu Hue.
  rewrite (serve_dispatched Ha Hr). pick_action Hact.
  unfold calls, bind, await_rows, await.
  change (primary_query be userRole req "calls")
    with (calls_query (searchParams_get "start_date" (searchParams req))
                      (searchParams_get "client_id" (searchParams req))
                      (searchParams_get "status" (searchParams req))) in Hf.
  rewrite Hf. cbv beta iota. rewrite He. split; [reflexivity|].
  exists (mask_call cipher no_data call).
  destruct (mask_call_row call Ht Hte Hl Hle Hu Hue) as (M1 & M2 & M3).
  split.
  - unfold settle, ret, ok, rows_of. simpl.
    apply (map_nth_error JObj). now apply (map_nth_error (mask_call cipher no_data)).
  - rewrite M1, M2, M3, (encryptData_envelope cipher no_data Hte).
    repeat split; discriminate.
Qed.

(** C10 (amended).  For an authenticated principal of any resolved
    role, a principal without a role record included, the actions
    [calls], [demo_calls] and [tasks] never answer 403.  When its fetches
    succeed each answers 200 with the masked rows of its query, all of
    them.  The queries of [calls] and [tasks] are built from the request
    alone.  The query of [demo_calls] depends on the role: for the role
    [engineer] with an [engineer_id] parameter it is filtered on that
    parameter, for every other role (or none) it is unfiltered. *)
Theorem open_actions_answer (be : Backend) (req : Request) (userId : string)
        (userRole : option json) :
  authenticated be req userId ->
  resolved_role be userId userRole ->
  let param name := searchParams_get name (searchParams req) in
  (forall a, action_of req = Some a -> In a ["calls"; "demo_calls"; "tasks"] ->
     status (fst (run be req)) <> 403%Z) /\
  (action_of req = Some "calls" ->
   forall r,
     fetch_rows be (calls_query (param "start_date") (param "client_id") (param "status"))
       = Resolved r ->
     error r = None ->
     fst (run be req) =
       json_response 200
         (JArr (map JObj (map (mask_call cipher no_data) (or_empty (data r)))))) /\
  (action_of req = Some "tasks" ->
   forall r,
     fetch_rows be (tasks_query (param "assigned_to") (param "status")) = Resolved r ->
     error r = None ->
     fst (run be req) =
       json_response 200 (JArr (map JObj (map mask_task (or_empty (data r)))))) /\
  (action_of req = Some "demo_calls" ->
   forall r rt ra,
     fetch_rows be (demo_calls_query userRole (param "engineer_id")) = Resolved r ->
     error r = None ->
     fetch_rows be
       (demo_tasks_query (distinct (map (lookup "task_id") (or_empty (data r)))))
       = Resolved rt ->
     fetch_rows be
       (demo_agents_query (distinct (map (lookup "agent_id") (or_empty (data r)))))
       = Resolved ra ->
     fst (run be req) =
       json_response 200
         (JArr (map JObj
                  (map (mask_demo_call cipher no_data (data rt) (data ra))
                       (or_empty (data r)))))) /\
  (userRole = engineer ->
   forall e, param "engineer_id" = Some e -> e <> "" ->
     filters (demo_calls_query userRole (param "engineer_id")) =
       [ColEq "engineer_id" e]) /\
  (userRole <> engineer ->
   filters (demo_calls_query userRole (param "engineer_id")) = []).
Proof.
  intros Ha Hr param. subst param. cbv beta.
  rewrite (serve_dispatched Ha Hr).
  split; [|split; [|split; [|split; [|split]]]].
  - intros a Hact Hin. simpl in Hin.
    destruct Hin as [<-|[<-|[<-|[]]]]; pick_action Hact.
    + unfold calls, bind, await_rows, await.
      destruct (fetch_rows be _) as [r|?]; simpl; [destruct (error r)|]; discriminate.
    + unfold demo_calls, bind, await_rows, await.
      destruct (fetch_rows be (demo_calls_query _ _)) as [r|?]; simpl; [|discriminate].
      destruct (error r); simpl; [discriminate|].
      destruct (fetch_rows be (demo_tasks_query _)) as [rt|?]; simpl; [|discriminate].
      destruct (fetch_rows be (demo_agents_query _)) as [ra|?]; simpl; discriminate.
    + unfold tasks, bind, await_rows, await.
      destruct (fetch_rows be _) as [r|?]; simpl; [destruct (error r)|]; discriminate.
  - intros Hact r Hf He. pick_action Hact.
    unfold calls, bind, await_rows, await. rewrite Hf. cbv beta iota.
    now rewrite He.
  - intros Hact r Hf He. pick_action Hact.
    unfold tasks, bind, await_rows, await. rewrite Hf. cbv beta iota.
    now rewrite He.
  - intros Hact r rt ra Hf He Hft Hfa. pick_action Hact.
    unfold demo_calls, bind, await_rows, await. rewrite Hf. cbv beta iota.
    rewrite He, Hft. cbv beta iota. rewrite Hfa. reflexivity.
  - intros -> e He Hne. rewrite He. unfold demo_calls_query, engineer.
    simpl strict_eq. rewrite (absent_some_nonempty Hne). reflexivity.
  - intros Hrole. unfold demo_calls_query.
    now rewrite (strict_eq_string_false Hrole).
Qed.

End Handler.

(** * The handler on sample data *)

(** A session known to the fake identity service passes the gate. *)
Lemma sample_authenticated (db : Fake.Database) (header userId : string)
      (params : list (string * string)) :
  prefix "Bearer " header = true ->
  Fake.assoc header (Fake.sessions db) = Some userId ->
  authenticated (Fake.services db) (Fake.get (Some header) params) userId.
Proof.
  intros Hp Hs. unfold authenticated. simpl. split; [discriminate|].
  split; [exact Hp|]. unfold Fake.identify. now rewrite Hs.
Defined.

(** A Basic credential is turned away before anything is asked. *)
Lemma unauthorized_before_any_access_witness :
  Fake.respond Sample.db (Fake.get (Some "Basic dXNlcjpwdw==") [("action", "calls")]) =
  (json_response 401 (error_body "Unauthorized"), []).
Proof.
  apply (@unauthorized_before_any_access Fake.cipher Fake.no_data
           Fake.round_percent Fake.round_quotient (Fake.services Sample.db)
           (Fake.get (Some "Basic dXNlcjpwdw==") [("action", "calls")])).
  - simpl. discriminate.
  - intros h H. injection H as <-. reflexivity.
Defined.

(** A user without a role record asks for today's statistics. *)
Lemma admin_actions_forbidden_witness :
  Fake.respond Sample.db (Fake.get (Some "Bearer guest") [("action", "today_stats")]) =
  (json_response 403 (error_body "Forbidden"),
   gate_trace (Fake.get (Some "Bearer guest") [("action", "today_stats")]) "u-9").
Proof.
  apply (@admin_actions_forbidden Fake.cipher Fake.no_data
           Fake.round_percent Fake.round_quotient (Fake.services Sample.db)
           (Fake.get (Some "Bearer guest") [("action", "today_stats")])
           "u-9" None "today_stats").
  - apply sample_authenticated; reflexivity.
  - eexists. split; reflexivity.
  - discriminate.
  - reflexivity.
  - simpl. tauto.
Defined.

(** An admin asks for an action that does not exist. *)
Lemma unknown_action_invalid_witness :
  Fake.respond Sample.db (Fake.get (Some "Bearer adm") [("action", "nonexistent")]) =
  (json_response 400 (error_body "Invalid action"),
   gate_trace (Fake.get (Some "Bearer adm") [("action", "nonexistent")]) "adm-1").
Proof.
  apply (@unknown_action_invalid Fake.cipher Fake.no_data
           Fake.round_percent Fake.round_quotient (Fake.services Sample.db)
           (Fake.get (Some "Bearer adm") [("action", "nonexistent")])
           "adm-1" admin).
  - apply sample_authenticated; reflexivity.
  - eexists. split; reflexivity.
  - intros a H. injection H as <-. simpl.
    intros [H|[H|[H|[H|[H|[H|[]]]]]]]; discriminate H.
Defined.


(** C3 (as stated) fails: when the store refuses the [calls] table, the
    answer is 500 but its body carries the store's own message, not the
    generic one. *)
Lemma store_error_message_returned :
  let req := Fake.get (Some "Bearer adm") [("action", "calls")] in
  let response := fst (Fake.respond Sample.db_denied req) in
  fetch_rows (Fake.services Sample.db_denied) (calls_query None None None) =
    Resolved {| data := None;
                error := Some {| message := "permission denied for table calls" |} |} /\
  status response = 500%Z /\
  body response = Some (error_body "permission denied for table calls") /\
  body response <> Some (error_body "Internal server error").
Proof.
  repeat split; try reflexivity. discriminate.
Qed.

(** The store refusing the table, and the store out of reach. *)
Lemma primary_fetch_failure_witness :
  fst (Fake.respond Sample.db_denied (Fake.get (Some "Bearer adm") [("action", "calls")])) =
    json_response 500 (error_body "permission denied for table calls") /\
  fst (Fake.respond Sample.db_offline (Fake.get (Some "Bearer adm") [("action", "calls")])) =
    json_response 500 (error_body "Internal server error").
Proof.
  split.
  - refine (proj1
      (@primary_fetch_failure Fake.cipher Fake.no_data
         Fake.round_percent Fake.round_quotient (Fake.services Sample.db_denied)
         (Fake.get (Some "Bearer adm") [("action", "calls")])
         "adm-1" admin "calls" _ _ _ _ _)
      {| data := None;
         error := Some {| message := "permission denied for table calls" |} |}
      {| message := "permission denied for table calls" |} _ _).
    + apply sample_authenticated; reflexivity.
    + eexists. split; reflexivity.
    + reflexivity.
    + simpl. tauto.
    + reflexivity.
    + reflexivity.
    + reflexivity.
  - refine (proj2
      (@primary_fetch_failure Fake.cipher Fake.no_data
         Fake.round_percent Fake.round_quotient (Fake.services Sample.db_offline)
         (Fake.get (Some "Bearer adm") [("action", "calls")])
         "adm-1" admin "calls" _ _ _ _ _)
      "connection reset" _).
    + apply sample_authenticated; reflexivity.
    + eexists. split; reflexivity.
    + reflexivity.
    + simpl. tauto.
    + reflexivity.
    + reflexivity.
Defined.

(** C8 (as stated) fails: a stored call whose transcript is the empty
    text (not null), with a lead id and a recording URL, is returned with
    [transcript: null], which is no envelope. *)
Lemma empty_transcript_returned_null :
  let response :=
    fst (Fake.respond Sample.db (Fake.get (Some "Bearer adm") [("action", "calls")])) in
  lookup "transcript" Sample.call_pending = Some (JStr "") /\
  lookup "lead_id" Sample.call_pending =
    Some (JStr "0f8fad5b-d9cb-469f-a165-70867728950e") /\
  lookup "recording_url" Sample.call_pending =
    Some (JStr "https://storage.example/r2.mp3") /\
  exists out,
    nth_error (rows_of response) 1 = Some (JObj out) /\
    lookup "id" out = lookup "id" Sample.call_pending /\
    lookup "lead_id" out = Some (JStr "0f8fad5b...") /\
    lookup "recording_url" out = Some (JStr "proxy:recording:c2") /\
    lookup "transcript" out = Some JNull /\
    forall p, lookup "transcript" out <> Some (envelope p).
Proof.
  repeat split; try reflexivity.
  eexists. split; [reflexivity|].
  repeat split; try reflexivity. intros p. discriminate.
Qed.

(** The finished call of the sample data, first in the listing. *)
Lemma calls_row_masked_witness :
  let response :=
    fst (Fake.respond Sample.db (Fake.get (Some "Bearer adm") [("action", "calls")])) in
  status response = 200%Z /\
  exists out,
    nth_error (rows_of response) 0 = Some (JObj out) /\
    lookup "lead_id" out = Some (JStr (substring 0 8 "L1" ++ "...")) /\
    lookup "transcript" out = Some (encryptData Fake.cipher Fake.no_data "hello") /\
    lookup "transcript" out = Some (envelope (Fake.cipher "hello")) /\
    lookup "transcript" out <> Some (JStr "hello") /\
    lookup "recording_url" out =
      Some (JStr ("proxy:recording:" ++ template (lookup "id" Sample.call_done))).
Proof.
  refine (@calls_row_masked Fake.cipher Fake.no_data
            Fake.round_percent Fake.round_quotient (Fake.services Sample.db)
            (Fake.get (Some "Bearer adm") [("action", "calls")])
            "adm-1" admin
            {| data := Some [Sample.call_done; Sample.call_pending]; error := None |}
            0 Sample.call_done "hello" "L1" "https://storage.example/r.mp3"
            _ _ _ _ _ _ _ _ _ _ _ _).
  - apply sample_authenticated; reflexivity.
  - eexists. split; reflexivity.
  - reflexivity.
  - reflexivity.
  - reflexivity.
  - reflexivity.
  - reflexivity.
  - discriminate.
  - reflexivity.
  - discriminate.
  - reflexivity.
  - discriminate.
Defined.

(** C10 (as stated) fails: the rows answered by [demo_calls] depend on
    the role of the caller.  For the same request, with an [engineer_id]
    parameter, an engineer is answered the rows of that engineer only and
    an admin all rows. *)
Lemma demo_calls_rows_depend_on_role :
  let params := [("action", "demo_calls"); ("engineer_id", "eng-2")] in
  let as_engineer := fst (Fake.respond Sample.db (Fake.get (Some "Bearer eng1") params)) in
  let as_admin := fst (Fake.respond Sample.db (Fake.get (Some "Bearer adm") params)) in
  status as_engineer = 200%Z /\
  status as_admin = 200%Z /\
  map (prop "id") (rows_of as_engineer) = [Some (JStr "d2")] /\
  map (prop "id") (rows_of as_admin) = [Some (JStr "d2"); Some (JStr "d1")].
Proof. repeat split; reflexivity. Qed.

(** A user without a role record lists the tasks. *)
Lemma open_actions_answer_witness :
  fst (Fake.respond Sample.db (Fake.get (Some "Bearer guest") [("action", "tasks")])) =
    json_response 200 (JArr (map JObj (map mask_task [Sample.task_row]))).
Proof.
  refine (proj1 (proj2 (proj2
            (@open_actions_answer Fake.cipher Fake.no_data
               Fake.round_percent Fake.round_quotient (Fake.services Sample.db)
               (Fake.get (Some "Bearer guest") [("action", "tasks")])
               "u-9" None _ _)))
            _ {| data := Some [Sample.task_row]; error := None |} _ _).
  - apply sample_authenticated; reflexivity.
  - eexists. split; reflexivity.
  - reflexivity.
  - reflexivity.
  - reflexivity.
Defined.

(** C1 is not met by the code.  The caller is the engineer [eng-1] and
    passes no [engineer_id]: the query is sent without any filter, and
    the answer holds the demo call of engineer [eng-2] as well.  For no
    role does the query of a request without [engineer_id] carry a
    filter. *)
Lemma engineer_sees_foreign_demo_calls :
  let req := Fake.get (Some "Bearer eng1") [("action", "demo_calls")] in
  let result := Fake.respond Sample.db req in
  authenticated (Fake.services Sample.db) req "eng-1" /\
  resolved_role (Fake.services Sample.db) "eng-1" engineer /\
  status (fst result) = 200%Z /\
  map (prop "engineer_id") (rows_of (fst result)) =
    [Some (JStr "eng-2"); Some (JStr "eng-1")] /\
  In (Fetch (demo_calls_query engineer None)) (snd result) /\
  forall role, filters (demo_calls_query role None) = [].
Proof.
  split; [apply sample_authenticated; reflexivity|].
  split; [eexists; split; reflexivity|].
  split; [reflexivity|]. split; [reflexivity|].
  split; [simpl; tauto|].
  intro role. unfold demo_calls_query. simpl absent.
  now rewrite andb_false_r.
Qed.

(** * Further properties of the proxy *)

(** ** More on strings *)

Lemma string_length_app (a b : string) :
  String.length (a ++ b) = String.length a + String.length b.
Proof. induction a as [|c a IH]; simpl; [reflexivity | now rewrite IH]. Qed.

Lemma substring_app_tail (a b : string) :
  substring (String.length a) (String.length b) (a ++ b) = b.
Proof.
  induction a as [|c a IH]; simpl.
  - apply substring_all.
  - exact IH.
Qed.

Lemma length_substring_prefix (n : nat) (s : string) :
  String.length (substring 0 n s) = Nat.min n (String.length s).
Proof.
  revert n. induction s as [|c s IH]; intros [|n]; simpl; try reflexivity.
  now rewrite IH.
Qed.

Lemma substring_prefix_short (n : nat) (s : string) :
  String.length s <= n -> substring 0 n s = s.
Proof.
  revert n. induction s as [|c s IH]; intros [|n] H; simpl in *;
    try reflexivity; try lia.
  f_equal. apply IH. lia.
Qed.

Lemma maskUuid_present (u : string) :
  u <> "" -> maskUuid (Some u) = substring 0 8 u ++ "...".
Proof.
  intro H. unfold maskUuid. rewrite (absent_some_nonempty H). simpl text.
  now rewrite slice_first_eight.
Qed.

Lemma maskPhone_long (front last4 : string) :
  front <> "" -> String.length last4 = 4 ->
  maskPhone (Some (front ++ last4)) = Js.repeat "*" (String.length front) ++ last4.
Proof.
  intros Hf H4.
  assert (Hlen : String.length (front ++ last4) = String.length front + 4)
    by (now rewrite string_length_app, H4).
  assert (Hpos : 0 < String.length front)
    by (destruct front; [contradiction | simpl; lia]).
  unfold maskPhone. rewrite absent_some_nonempty.
  - simpl text. destruct (Nat.leb_spec (String.length (front ++ last4)) 4); [lia|].
    rewrite slice_last_four by lia. rewrite Hlen.
    replace (String.length front + 4 - 4) with (String.length front) by lia.
    f_equal. rewrite <- H4 at 1. apply substring_app_tail.
  - intro E. rewrite E in Hlen. simpl in Hlen. lia.
Qed.

(** ** What the masks give away *)

(** X1.  [maskUuid] shows the first eight characters of an identifier
    and nothing of the rest: the mask of a non-empty identifier is its
    first eight characters followed by "...", so it is at most eleven
    characters long and two identifiers that agree on their first eight
    characters have the same mask.  An identifier of at most eight
    characters is shown in full.  An absent or empty identifier is
    answered by eight asterisks. *)
Theorem maskUuid_shows_prefix_only :
  maskUuid None = "********" /\
  maskUuid (Some "") = "********" /\
  (forall u, u <> "" ->
     maskUuid (Some u) = substring 0 8 u ++ "..." /\
     String.length (maskUuid (Some u)) = Nat.min 8 (String.length u) + 3) /\
  (forall u v, u <> "" -> v <> "" ->
     substring 0 8 u = substring 0 8 v -> maskUuid (Some u) = maskUuid (Some v)) /\
  (forall u, u <> "" -> String.length u <= 8 -> maskUuid (Some u) = u ++ "...").
Proof.
  split; [reflexivity|]. split; [reflexivity|]. split; [|split].
  - intros u Hu. rewrite (maskUuid_present Hu). split; [reflexivity|].
    rewrite string_length_app, length_substring_prefix. reflexivity.
  - intros u v Hu Hv E. now rewrite (maskUuid_present Hu), (maskUuid_present Hv), E.
  - intros u Hu Hs. rewrite (maskUuid_present Hu).
    now rewrite (@substring_prefix_short 8 u Hs).
Qed.

(** A uuid and a short identifier. *)
Lemma maskUuid_shows_prefix_only_witness :
  maskUuid (Some "0f8fad5b-d9cb-469f-a165-70867728950e") = "0f8fad5b..." /\
  maskUuid (Some "L1") = "L1...".
Proof.
  split.
  - exact (proj1 (proj1 (proj2 (proj2 maskUuid_shows_prefix_only))
                    "0f8fad5b-d9cb-469f-a165-70867728950e" ltac:(discriminate))).
  - apply (proj2 (proj2 (proj2 (proj2 maskUuid_shows_prefix_only))) "L1").
    + discriminate.
    + simpl. lia.
Defined.

(** X2.  [maskPhone] keeps the length of a phone number longer than
    four characters and shows its last four characters only: the mask
    depends on nothing but the length of the number and those four
    characters.  The mask of any other input has exactly four
    characters. *)
Theorem maskPhone_keeps_length_hides_front :
  (forall p, 4 < String.length p ->
     String.length (maskPhone (Some p)) = String.length p) /\
  (forall front front' last4,
     front <> "" -> String.length front = String.length front' ->
     String.length last4 = 4 ->
     maskPhone (Some (front ++ last4)) = maskPhone (Some (front' ++ last4))) /\
  (forall p, String.length p <= 4 -> String.length (maskPhone (Some p)) = 4).
Proof.
  split; [|split].
  - intros p Hp.
    destruct (@split_at (String.length p - 4) p ltac:(lia)) as [E L].
    replace (String.length p - (String.length p - 4)) with 4 in * by lia.
    rewrite E at 1. rewrite maskPhone_long.
    + rewrite string_length_app, length_repeat_star, L, length_substring_prefix. lia.
    + intro H0. apply (f_equal String.length) in H0.
      rewrite length_substring_prefix in H0. simpl in H0. lia.
    + exact L.
  - intros front front' last4 Hf Hl H4.
    assert (Hf' : front' <> "").
    { intro E. subst front'. destruct front; [contradiction | discriminate]. }
    now rewrite (@maskPhone_long front last4 Hf H4), (@maskPhone_long front' last4 Hf' H4), Hl.
  - intros p Hp. unfold maskPhone. simpl.
    destruct (String.eqb p ""); [reflexivity|].
    apply Nat.leb_le in Hp. now rewrite Hp.
Qed.

(** Two numbers of the same length with the same last four digits. *)
Lemma maskPhone_keeps_length_hides_front_witness :
  String.length (maskPhone (Some "9876543210")) = 10 /\
  maskPhone (Some ("987654" ++ "3210")) = maskPhone (Some ("111111" ++ "3210")).
Proof.
  split.
  - apply (proj1 maskPhone_keeps_length_hides_front "9876543210"). simpl. lia.
  - apply (proj1 (proj2 maskPhone_keeps_length_hides_front) "987654" "111111" "3210").
    + discriminate.
    + reflexivity.
    + reflexivity.
Defined.

(** ** Every path through the handler *)

Lemma table_demo_calls_query (role : option json) (engineerId : option string) :
  table (demo_calls_query role engineerId) = "demo_calls".
Proof.
  unfold demo_calls_query.
  now destruct (strict_eq role (Some (JStr "engineer")) && negb (absent engineerId)).
Qed.

Lemma table_calls_query (startDate clientId statusFilter : option string) :
  table (calls_query startDate clientId statusFilter) = "calls".
Proof.
  unfold calls_query.
  destruct (negb (absent startDate)), (negb (absent clientId)),
    (negb (absent statusFilter) && negb (String.eqb (text statusFilter) "all"));
    reflexivity.
Qed.

Lemma table_tasks_query (assignedTo status : option string) :
  table (tasks_query assignedTo status) = "tasks".
Proof.
  unfold tasks_query.
  destruct (negb (absent assignedTo)), (negb (absent status)); reflexivity.
Qed.

Lemma data_fetch_of (q : Query) : In (table q) data_tables -> data_fetch (Fetch q).
Proof. intro H. now exists q. Qed.

Section Paths.

Variable cipher : string -> EncryptedPayload.
Variable no_data : json.
Variable round_percent round_quotient : Z -> Z -> Z.

Local Abbreviation run := (serve cipher no_data round_percent round_quotient).
Local Abbreviation act := (dispatch cipher no_data round_percent round_quotient).

(** The ways a request can go up to the dispatch. *)
Lemma serve_paths (be : Backend) (req : Request) :
  let h := text (authorization req) in
  (method req = "OPTIONS" /\
   run be req = ({| status := 200; headers := corsHeaders; body := None |}, [])) \/
  (method req <> "OPTIONS" /\ bearer (authorization req) = false /\
   run be req = (json_response 401 (error_body "Unauthorized"), [])) \/
  (method req <> "OPTIONS" /\ bearer (authorization req) = true /\
   (exists reason, getUser be h = Rejected reason) /\
   run be req = (json_response 500 (error_body "Internal server error"), [AuthCheck h])) \/
  (method req <> "OPTIONS" /\ bearer (authorization req) = true /\
   (exists u, getUser be h = Resolved u /\ (authError u <> None \/ user u = None)) /\
   run be req = (json_response 401 (error_body "Invalid token"), [AuthCheck h])) \/
  (exists userId, authenticated be req userId /\
   (exists reason, fetch_single be (role_query userId) = Rejected reason) /\
   run be req = (json_response 500 (error_body "Internal server error"),
                 gate_trace req userId)) \/
  (exists userId userRole,
     authenticated be req userId /\ resolved_role be userId userRole /\
     run be req = settle (act be userRole req (gate_trace req userId))).
Proof.
  intro h. subst h. unfold serve.
  destruct (String.eqb_spec (method req) "OPTIONS") as [Hm|Hm]; [now left|].
  right. unfold proxy.
  destruct (bearer (authorization req)) eqn:Hb; simpl negb; cbv iota; [|now left].
  right. unfold bind, await_single, await.
  destruct (getUser be (text (authorization req))) as [u|reason] eqn:Hu; cbv beta iota.
  - right. destruct u as [usr err]. simpl.
    destruct err as [e|].
    { left. repeat split; try assumption.
      exists {| user := usr; authError := Some e |}. split; [reflexivity|].
      left. discriminate. }
    destruct usr as [userId|].
    2:{ left. repeat split; try assumption.
        exists {| user := None; authError := None |}. split; [reflexivity|].
        now right. }
    right.
    assert (Ha : authenticated be req userId) by (repeat split; assumption).
    destruct (fetch_single be (role_query userId)) as [r|reason] eqn:Hr; cbv beta iota.
    + right. exists userId. eexists. split; [exact Ha|]. split; [|reflexivity].
      exists r. split; [exact Hr | reflexivity].
    + left. exists userId. split; [exact Ha|]. split; [now exists reason | reflexivity].
  - left. repeat split; try assumption. now exists reason.
Qed.

(** What an action leaves behind: a JSON response, and at most three
    fetches of data tables after the calls already made. *)
Lemma action_outcome (be : Backend) (role : option json) (req : Request)
      (t0 : list Event) :
  exists code value fetches,
    settle (act be role req t0) = (json_response code value, (t0 ++ fetches)%list) /\
    List.length fetches <= 3 /\
    Forall data_fetch fetches /\
    (code = 200%Z \/
     (In code [400; 403; 500]%Z /\ exists msg, value = error_body msg)).
Proof.
  assert (Hnone : forall code msg, In code [400; 403; 500]%Z ->
    exists code' value fetches,
      (json_response code (error_body msg), t0) =
        (json_response code' value, (t0 ++ fetches)%list) /\
      List.length fetches <= 3 /\ Forall data_fetch fetches /\
      (code' = 200%Z \/ (In code' [400; 403; 500]%Z /\ exists m, value = error_body m))).
  { intros code msg Hc. exists code, (error_body msg), [].
    rewrite app_nil_r. split; [reflexivity|]. split; [simpl; lia|].
    split; [constructor|]. right. split; [exact Hc | now exists msg]. }
  assert (Hone : forall q code value,
    In (table q) data_tables ->
    (code = 200%Z \/ (In code [400; 403; 500]%Z /\ exists m, value = error_body m)) ->
    exists code' value' fetches,
      (json_response code value, (t0 ++ [Fetch q])%list) =
        (json_response code' value', (t0 ++ fetches)%list) /\
      List.length fetches <= 3 /\ Forall data_fetch fetches /\
      (code' = 200%Z \/ (In code' [400; 403; 500]%Z /\ exists m, value' = error_body m))).
  { intros q code value Hq Hc. exists code, value, [Fetch q].
    split; [reflexivity|]. split; [simpl; lia|]. split; [|exact Hc].
    constructor; [now apply data_fetch_of | constructor]. }
  assert (Hfail : forall e : PostgrestError,
    (500%Z = 200%Z \/
     (In 500%Z [400; 403; 500]%Z /\ exists m, error_body (message e) = error_body m))).
  { intro e. right. split; [simpl; tauto | now exists (message e)]. }
  assert (Hthrown :
    (500%Z = 200%Z \/
     (In 500%Z [400; 403; 500]%Z /\
      exists m, error_body "Internal server error" = error_body m))).
  { right. split; [simpl; tauto | now eexists]. }
  destruct (dispatch_cases cipher no_data round_percent round_quotient be role req t0)
    as [[_ E]|[[_ E]|[[_ E]|[[_ E]|[[_ E]|[[_ E]|[_ E]]]]]]]; rewrite E; clear E.
  - (* demo_calls *)
    unfold demo_calls, bind, await_rows, await.
    pose proof (table_demo_calls_query role
                  (searchParams_get "engineer_id" (searchParams req))) as Hq.
    destruct (fetch_rows be (demo_calls_query _ _)) as [r|?]; cbv beta iota.
    2:{ apply Hone; [rewrite Hq; simpl; tauto | exact Hthrown]. }
    destruct (error r) as [e|].
    { apply Hone; [rewrite Hq; simpl; tauto | apply Hfail]. }
    set (q1 := demo_calls_query role (searchParams_get "engineer_id" (searchParams req))) in *.
    set (q2 := demo_tasks_query _). set (q3 := demo_agents_query _).
    destruct (fetch_rows be q2) as [rt|?]; cbv beta iota.
    2:{ exists 500%Z, (error_body "Internal server error"), [Fetch q1; Fetch q2].
        simpl settle. rewrite <- app_assoc.
        split; [reflexivity|]. split; [simpl; lia|]. split; [|exact Hthrown].
        repeat constructor; apply data_fetch_of; [rewrite Hq|]; simpl; tauto. }
    destruct (fetch_rows be q3) as [ra|?]; cbv beta iota.
    + eexists 200%Z, _, [Fetch q1; Fetch q2; Fetch q3].
      simpl settle. rewrite <- !app_assoc. split; [reflexivity|].
      split; [simpl; lia|]. split; [|now left].
      repeat constructor; apply data_fetch_of; [rewrite Hq| |]; simpl; tauto.
    + exists 500%Z, (error_body "Internal server error"), [Fetch q1; Fetch q2; Fetch q3].
      simpl settle. rewrite <- !app_assoc.
      split; [reflexivity|]. split; [simpl; lia|]. split; [|exact Hthrown].
      repeat constructor; apply data_fetch_of; [rewrite Hq| |]; simpl; tauto.
  - (* admin_demo_calls *)
    unfold admin_demo_calls.
    destruct (strict_eq role (Some (JStr "admin"))); simpl negb; cbv iota.
    2:{ apply Hnone. simpl; tauto. }
    unfold bind, await_rows, await.
    destruct (fetch_rows be admin_demo_calls_query) as [r|?]; cbv beta iota;
      [destruct (error r) as [e|]|];
      apply Hone; try (simpl; tauto); auto.
  - (* calls *)
    unfold calls, bind, await_rows, await.
    match goal with |- context [fetch_rows be ?q] =>
      pose proof (table_calls_query
                    (searchParams_get "start_date" (searchParams req))
                    (searchParams_get "client_id" (searchParams req))
                    (searchParams_get "status" (searchParams req))) as Hq;
      destruct (fetch_rows be q) as [r|?]; cbv beta iota;
      [destruct (error r) as [e|]|];
      apply Hone; try (rewrite Hq; simpl; tauto); auto
    end.
  - (* active_calls *)
    unfold active_calls.
    destruct (strict_eq role (Some (JStr "admin"))); simpl negb; cbv iota.
    2:{ apply Hnone. simpl; tauto. }
    unfold bind, await_rows, await.
    destruct (fetch_rows be active_calls_query) as [r|?]; cbv beta iota;
      [destruct (error r) as [e|]|];
      apply Hone; try (simpl; tauto); auto.
  - (* today_stats *)
    unfold today_stats.
    destruct (strict_eq role (Some (JStr "admin"))); simpl negb; cbv iota.
    2:{ apply Hnone. simpl; tauto. }
    unfold bind, await_rows, await.
    destruct (fetch_rows be (today_stats_query be)) as [r|?]; cbv beta iota;
      [destruct (error r) as [e|]|];
      apply Hone; try (simpl; tauto); auto.
  - (* tasks *)
    unfold tasks, bind, await_rows, await.
    match goal with |- context [fetch_rows be ?q] =>
      pose proof (table_tasks_query
                    (searchParams_get "assigned_to" (searchParams req))
                    (searchParams_get "status" (searchParams req))) as Hq;
      destruct (fetch_rows be q) as [r|?]; cbv beta iota;
      [destruct (error r) as [e|]|];
      apply Hone; try (rewrite Hq; simpl; tauto); auto
    end.
  - apply Hnone. simpl; tauto.
Qed.

(** X3.  A bearer token the identity service does not accept, be it
    answered with an error or without a user, is answered 401 with the
    body [{error: "Invalid token"}] whatever the action; the identity
    check is the only outside call made, so no table is read, not even
    the roles. *)
Theorem invalid_token_rejected (be : Backend) (req : Request) (h : string)
        (u : UserResponse) :
  method req <> "OPTIONS" ->
  authorization req = Some h ->
  prefix "Bearer " h = true ->
  getUser be h = Resolved u ->
  authError u <> None \/ user u = None ->
  run be req = (json_response 401 (error_body "Invalid token"), [AuthCheck h]).
Proof.
  intros Hm Hh Hp Hu Hbad.
  unfold serve, proxy. rewrite (eqb_string_false Hm), Hh. unfold bearer. rewrite Hp.
  unfold bind, await. cbv beta iota delta [negb text]. rewrite Hu. cbv beta iota.
  destruct (authError u) as [e|]; [reflexivity|].
  destruct (user u) as [userId|]; [|reflexivity].
  destruct Hbad as [Hbad|Hbad]; [now contradiction Hbad | discriminate Hbad].
Qed.

(** X4.  When the identity service or the role lookup cannot be reached
    (the awaited call rejects), the answer is 500 with the generic body
    [{error: "Internal server error"}]: the reason is not passed on, the
    request is not taken for unauthenticated, and no data table is
    read. *)
Theorem gate_outage_generic (be : Backend) (req : Request) (h : string) :
  method req <> "OPTIONS" ->
  authorization req = Some h ->
  prefix "Bearer " h = true ->
  (forall reason,
     getUser be h = Rejected reason ->
     run be req = (json_response 500 (error_body "Internal server error"),
                   [AuthCheck h])) /\
  (forall userId reason,
     getUser be h = Resolved {| user := Some userId; authError := None |} ->
     fetch_single be (role_query userId) = Rejected reason ->
     run be req = (json_response 500 (error_body "Internal server error"),
                   [AuthCheck h; Fetch (role_query userId)])).
Proof.
  intros Hm Hh Hp.
  split.
  - intros reason Hu. unfold serve, proxy.
    rewrite (eqb_string_false Hm), Hh. unfold bearer. rewrite Hp.
    unfold bind, await. cbv beta iota delta [negb text]. now rewrite Hu.
  - intros userId reason Hu Hr. unfold serve, proxy.
    rewrite (eqb_string_false Hm), Hh. unfold bearer. rewrite Hp.
    unfold bind, await_single, await. cbv beta iota delta [negb text].
    rewrite Hu. cbv beta iota. simpl. now rewrite Hr.
Qed.

(** X5.  Whatever the backend and the request, the status of the answer
    is one of 200, 400, 401, 403 and 500 and its headers include the two
    CORS headers.  Only the preflight has no body; every other answer is
    JSON with the content type [application/json], and when its status
    is not 200 its body is an object with the single key [error]. *)
Theorem response_shape (be : Backend) (req : Request) :
  let response := fst (run be req) in
  In (status response) status_codes /\
  (forall header, In header corsHeaders -> In header (headers response)) /\
  (body response = None <-> method req = "OPTIONS") /\
  (body response <> None -> headers response = json_headers) /\
  (status response <> 200%Z ->
   exists msg, body response = Some (error_body msg)).
Proof.
  assert (Hjson : forall code value,
    In code status_codes ->
    (code <> 200%Z -> exists msg, value = error_body msg) ->
    method req <> "OPTIONS" ->
    let response := json_response code value in
    In (status response) status_codes /\
    (forall header, In header corsHeaders -> In header (headers response)) /\
    (body response = None <-> method req = "OPTIONS") /\
    (body response <> None -> headers response = json_headers) /\
    (status response <> 200%Z ->
     exists msg, body response = Some (error_body msg))).
  { intros code value Hc He Hm response. subst response. simpl.
    split; [exact Hc|].
    split; [intros header Hin; tauto|].
    split; [split; [discriminate | contradiction]|].
    split; [reflexivity|].
    intro Hne. destruct (He Hne) as [msg ->]. now exists msg. }
  destruct (serve_paths be req)
    as [[Hm E]|[(Hm & _ & E)|[(Hm & _ & _ & E)|[(Hm & _ & _ & E)|
        [(userId & (Hm & _) & _ & E)|(userId & role & (Hm & _) & _ & E)]]]]];
    rewrite E; clear E.
  - simpl. unfold status_codes. split; [simpl; tauto|].
    split; [tauto|]. split; [tauto|]. split; [congruence|]. congruence.
  - apply Hjson; [simpl; tauto | intros _; now eexists | exact Hm].
  - apply Hjson; [simpl; tauto | intros _; now eexists | exact Hm].
  - apply Hjson; [simpl; tauto | intros _; now eexists | exact Hm].
  - apply Hjson; [simpl; tauto | intros _; now eexists | exact Hm].
  - destruct (action_outcome be role req (gate_trace req userId))
      as (code & value & fetches & E & _ & _ & Hc).
    rewrite E. apply Hjson; [| |exact Hm].
    + destruct Hc as [->|[Hc _]]; unfold status_codes; simpl in *; tauto.
    + intro Hne. destruct Hc as [->|[_ Hmsg]]; [contradiction | exact Hmsg].
Qed.

(** X6.  No table is read for a request that has not passed the gate.
    If the handler fetched anything at all, the request is authenticated,
    and its outside calls are, in this order, the identity check, the
    role lookup, and then at most three fetches of data tables: five
    calls at most. *)
Theorem fetch_only_after_gate (be : Backend) (req : Request) (q : Query) :
  In (Fetch q) (snd (run be req)) ->
  exists userId rest,
    authenticated be req userId /\
    snd (run be req) = (gate_trace req userId ++ rest)%list /\
    Forall data_fetch rest /\
    List.length (snd (run be req)) <= 5.
Proof.
  intro Hin.
  destruct (serve_paths be req)
    as [[_ E]|[(_ & _ & E)|[(_ & _ & _ & E)|[(_ & _ & _ & E)|
        [(userId & Ha & _ & E)|(userId & role & Ha & _ & E)]]]]];
    rewrite E in *; clear E; simpl in Hin.
  - contradiction.
  - contradiction.
  - destruct Hin as [Hin|[]]. discriminate Hin.
  - destruct Hin as [Hin|[]]. discriminate Hin.
  - exists userId, []. rewrite app_nil_r. simpl.
    split; [exact Ha|]. split; [reflexivity|]. split; [constructor | lia].
  - destruct (action_outcome be role req (gate_trace req userId))
      as (code & value & fetches & E & Hlen & Hdata & _).
    rewrite E. simpl snd. exists userId, fetches.
    split; [exact Ha|]. split; [reflexivity|]. split; [exact Hdata|].
    unfold gate_trace. simpl. lia.
Qed.

End Paths.

(** ** What the listings leave alone *)

Lemma keys_set (k : string) (v : json) (o : object) :
  (In k (keys o) /\ keys (set k v o) = keys o) \/
  (~ In k (keys o) /\ keys (set k v o) = (keys o ++ [k])%list).
Proof.
  unfold keys. induction o as [|[k' v'] rest IH]; simpl.
  - right. split; [tauto | reflexivity].
  - destruct (String.eqb_spec k k') as [->|Hne]; simpl.
    + left. split; [now left | reflexivity].
    + destruct IH as [[Hin E]|[Hnin E]].
      * left. split; [now right | now rewrite E].
      * right. split; [|now rewrite E].
        intros [H|H]; [now apply Hne | now apply Hnin].
Qed.

Lemma extends_refl (ks : list string) (o : object) : extends ks o o.
Proof.
  exists []. rewrite app_nil_r. split; [reflexivity|].
  split; [intros k []|tauto].
Qed.

Lemma extends_set (ks : list string) (k : string) (v : json) (o o' : object) :
  In k ks -> extends ks o o' -> extends ks o (set k v o').
Proof.
  intros Hk (added & E & Hadd & Hnd).
  destruct (keys_set k v o') as [[Hin E']|[Hnin E']].
  - exists added. rewrite E'. split; [exact E|]. split; [exact Hadd|].
    exact Hnd.
  - exists (added ++ [k])%list. rewrite E', E, app_assoc.
    split; [reflexivity|]. split.
    + intros k0 Hin0. apply in_app_or in Hin0. destruct Hin0 as [H|[<-|[]]].
      * now apply Hadd.
      * split; [exact Hk|]. intro H. apply Hnin. rewrite E. apply in_or_app. now left.
    + intro H. specialize (Hnd H).
      rewrite <- E. apply NoDup_app; [exact Hnd | |].
      * constructor; [intros [] | constructor].
      * intros x Hx [<-|[]]. contradiction.
Qed.

Section Listings.

Variable cipher : string -> EncryptedPayload.
Variable no_data : json.
Variable round_percent round_quotient : Z -> Z -> Z.

Local Abbreviation run := (serve cipher no_data round_percent round_quotient).
Local Abbreviation act := (dispatch cipher no_data round_percent round_quotient).

Ltac lookup_through :=
  repeat (rewrite lookup_set_same || (rewrite lookup_set_other by discriminate)).

Ltac pick_action Hact :=
  match goal with
  | |- context [dispatch _ _ _ _ ?be ?role ?req ?t0] =>
      destruct (@dispatch_cases cipher no_data round_percent round_quotient
                  be role req t0)
        as [[A E]|[[A E]|[[A E]|[[A E]|[[A E]|[[A E]|[A E]]]]]]];
      rewrite Hact in A;
      first [ discriminate A
            | exfalso; apply (A _ eq_refl); simpl; tauto
            | rewrite E; clear A E ]
  end.

Ltac other_keys H :=
  repeat (rewrite lookup_set_other
            by (intro; subst; apply H; simpl; tauto));
  reflexivity.

(** X7.  A listing returns every column it does not override exactly
    as the store gave it: [calls] and [active_calls] touch [lead_id],
    [transcript], [summary], [recording_url] and [metadata] ([calls] also
    writes [agent]); the demo listings touch [phone_number],
    [external_call_id], [transcript], [recording_url] and
    [uploaded_audio_url] ([demo_calls] also writes [tasks] and
    [aitel_agents]); [tasks] touches [aitel_agents] only. *)
Theorem listings_keep_other_columns (call : object) (k : string)
        (tasks agents : option (list object)) :
  (~ In k call_overrides ->
   lookup k (mask_call_fields cipher no_data call) = lookup k call) /\
  (~ In k ("agent" :: call_overrides) ->
   lookup k (mask_call cipher no_data call) = lookup k call) /\
  (~ In k demo_overrides ->
   lookup k (mask_demo_fields cipher no_data call) = lookup k call) /\
  (~ In k ("tasks" :: "aitel_agents" :: demo_overrides) ->
   lookup k (mask_demo_call cipher no_data tasks agents call) = lookup k call) /\
  (k <> "aitel_agents" -> lookup k (mask_task call) = lookup k call).
Proof.
  unfold mask_call, mask_demo_call, mask_call_fields, mask_demo_fields, mask_task.
  repeat split; intro H; other_keys H.
Qed.

(** X8.  A listed row keeps the columns of the stored row in their
    order; the keys the listing writes and the stored row lacks are
    added after them, and a row with unique keys stays so. *)
Theorem listings_keep_key_order (call : object)
        (tasks agents : option (list object)) :
  extends call_overrides call (mask_call_fields cipher no_data call) /\
  extends ("agent" :: call_overrides) call (mask_call cipher no_data call) /\
  extends demo_overrides call (mask_demo_fields cipher no_data call) /\
  extends ("tasks" :: "aitel_agents" :: demo_overrides) call
          (mask_demo_call cipher no_data tasks agents call) /\
  extends ["aitel_agents"] call (mask_task call).
Proof.
  unfold mask_call, mask_demo_call, mask_call_fields, mask_demo_fields, mask_task.
  repeat split;
    repeat (apply extends_set; [simpl; tauto|]); apply extends_refl.
Qed.

Lemma maskPhone_long_number (p : string) :
  4 < String.length p ->
  maskPhone (Some p) =
    Js.repeat "*" (String.length p - 4) ++ substring (String.length p - 4) 4 p.
Proof.
  intro H. unfold maskPhone. rewrite absent_some_nonempty.
  - simpl text. destruct (Nat.leb_spec (String.length p) 4); [lia|].
    now rewrite slice_last_four.
  - intro E. subst p. simpl in H. lia.
Qed.

Lemma strict_eq_admin : strict_eq admin (Some (JStr "admin")) = true.
Proof. reflexivity. Qed.

(** X9.  For an authenticated admin whose fetch succeeds, the three
    admin actions answer 200 after exactly one fetch beyond the gate:
    [admin_demo_calls] and [active_calls] with every row of the answer
    of the store, masked and in the same order, and [today_stats] with
    the summary of the rows. *)
Theorem admin_actions_answer (be : Backend) (req : Request) (userId : string)
        (r : PostgrestResponse (list object)) :
  authenticated be req userId ->
  resolved_role be userId admin ->
  error r = None ->
  (action_of req = Some "admin_demo_calls" ->
   fetch_rows be admin_demo_calls_query = Resolved r ->
   run be req =
     (json_response 200
        (JArr (map JObj (map (mask_demo_fields cipher no_data) (or_empty (data r))))),
      (gate_trace req userId ++ [Fetch admin_demo_calls_query])%list)) /\
  (action_of req = Some "active_calls" ->
   fetch_rows be active_calls_query = Resolved r ->
   run be req =
     (json_response 200
        (JArr (map JObj (map (mask_call_fields cipher no_data) (or_empty (data r))))),
      (gate_trace req userId ++ [Fetch active_calls_query])%list)) /\
  (action_of req = Some "today_stats" ->
   fetch_rows be (today_stats_query be) = Resolved r ->
   run be req =
     (json_response 200
        (today_summary round_percent round_quotient (or_empty (data r))),
      (gate_trace req userId ++ [Fetch (today_stats_query be)])%list)).
Proof.
  intros Ha Hr He. rewrite (@serve_dispatched cipher no_data round_percent round_quotient _ _ _ _ Ha Hr).
  repeat split; intros Hact Hf; pick_action Hact;
    unfold admin_demo_calls, active_calls, today_stats;
    rewrite strict_eq_admin; cbv beta iota delta [negb];
    unfold bind, await_rows, await; rewrite Hf; cbv beta iota; rewrite He;
    reflexivity.
Qed.

(** X10.  In the answer to [admin_demo_calls] a stored demo call is
    returned, at its position, with its phone number reduced to
    asterisks and its last four characters, its external call id reduced
    to eight characters, its recording URL replaced by the token
    "proxy:recording:" followed by the id of the call, and an absent
    upload URL left [null]; the engineer it belongs to is returned as
    stored. *)
Theorem admin_demo_row_masked (be : Backend) (req : Request) (userId : string)
        (r : PostgrestResponse (list object)) (i : nat) (call : object)
        (p e u : string) :
  authenticated be req userId ->
  resolved_role be userId admin ->
  action_of req = Some "admin_demo_calls" ->
  fetch_rows be admin_demo_calls_query = Resolved r ->
  error r = None ->
  nth_error (or_empty (data r)) i = Some call ->
  lookup "phone_number" call = Some (JStr p) -> 4 < String.length p ->
  lookup "external_call_id" call = Some (JStr e) -> e <> "" ->
  lookup "recording_url" call = Some (JStr u) -> u <> "" ->
  lookup "uploaded_audio_url" call = Some JNull ->
  exists out,
    nth_error (rows_of (fst (run be req))) i = Some (JObj out) /\
    lookup "phone_number" out =
      Some (JStr (Js.repeat "*" (String.length p - 4)
                  ++ substring (String.length p - 4) 4 p)) /\
    lookup "external_call_id" out = Some (JStr (substring 0 8 e ++ "...")) /\
    lookup "recording_url" out =
      Some (JStr ("proxy:recording:" ++ template (lookup "id" call))) /\
    lookup "uploaded_audio_url" out = Some JNull /\
    lookup "engineer_id" out = lookup "engineer_id" call.
Proof.
  intros Ha Hr Hact Hf He Hi Hp Hlong Hext Hne Hu Hue Hup.
  rewrite (@serve_dispatched cipher no_data round_percent round_quotient _ _ _ _ Ha Hr). pick_action Hact.
  unfold admin_demo_calls. rewrite strict_eq_admin. cbv beta iota delta [negb].
  unfold bind, await_rows, await. rewrite Hf. cbv beta iota. rewrite He.
  exists (mask_demo_fields cipher no_data call). split.
  - unfold settle, ret, ok, rows_of. simpl.
    apply (map_nth_error JObj).
    now apply (map_nth_error (mask_demo_fields cipher no_data)).
  - unfold mask_demo_fields. lookup_through. rewrite Hp, Hext, Hu, Hup.
    simpl as_string. rewrite (maskPhone_long_number p Hlong), (maskUuid_present Hne).
    unfold proxyRecordingUrl. rewrite (absent_some_nonempty Hue). simpl.
    repeat split.
Qed.

(** X11.  In the answer to [tasks] a task is returned, at its position,
    with the embedded agent's external id reduced to eight characters
    and each of its two system prompts replaced by the fixed text
    "[System prompt configured]" when it is set and by [null] when it is
    not; the other fields of the agent are returned as stored.  A task
    without an agent is returned with [aitel_agents: null]. *)
Theorem task_row_masked (be : Backend) (req : Request) (userId : string)
        (userRole : option json) (r : PostgrestResponse (list object))
        (i : nat) (task : object) :
  authenticated be req userId ->
  resolved_role be userId userRole ->
  action_of req = Some "tasks" ->
  fetch_rows be (primary_query be userRole req "tasks") = Resolved r ->
  error r = None ->
  nth_error (or_empty (data r)) i = Some task ->
  exists out,
    nth_error (rows_of (fst (run be req))) i = Some (JObj out) /\
    (truthy (lookup "aitel_agents" task) = false ->
     lookup "aitel_agents" out = Some JNull) /\
    (forall agent x,
       lookup "aitel_agents" task = Some (JObj agent) ->
       lookup "external_agent_id" agent = Some (JStr x) -> x <> "" ->
       exists masked,
         lookup "aitel_agents" out = Some (JObj masked) /\
         lookup "external_agent_id" masked = Some (JStr (substring 0 8 x ++ "...")) /\
         (forall k s, (k = "current_system_prompt" \/ k = "original_system_prompt") ->
            lookup k agent = Some (JStr s) -> s <> "" ->
            lookup k masked = Some (JStr "[System prompt configured]")) /\
         (forall k, (k = "current_system_prompt" \/ k = "original_system_prompt") ->
            lookup k agent = None -> lookup k masked = Some JNull) /\
         (forall k, ~ In k agent_overrides -> lookup k masked = lookup k agent)).
Proof.
  intros Ha Hr Hact Hf He Hi.
  rewrite (@serve_dispatched cipher no_data round_percent round_quotient _ _ _ _ Ha Hr). pick_action Hact.
  unfold tasks, bind, await_rows, await.
  change (primary_query be userRole req "tasks")
    with (tasks_query (searchParams_get "assigned_to" (searchParams req))
                      (searchParams_get "status" (searchParams req))) in Hf.
  rewrite Hf. cbv beta iota. rewrite He.
  exists (mask_task task). split; [|split].
  - unfold settle, ret, ok, rows_of. simpl.
    apply (map_nth_error JObj). now apply (map_nth_error mask_task).
  - intro Hfalse. unfold mask_task. rewrite lookup_set_same. now rewrite Hfalse.
  - intros agent x Hagent Hx Hxne. unfold mask_task. rewrite lookup_set_same.
    rewrite Hagent. simpl truthy. cbv iota. simpl or_null. simpl spread.
    eexists. split; [reflexivity|]. unfold prop. split; [|split; [|split]].
    + lookup_through. rewrite Hx. simpl as_string. now rewrite (maskUuid_present Hxne).
    + intros k s [->| ->] Hk Hs; lookup_through; rewrite Hk; simpl as_string;
        unfold maskSystemPrompt; now rewrite (absent_some_nonempty Hs).
    + intros k [->| ->] Hk; lookup_through; now rewrite Hk.
    + intros k Hk. other_keys Hk.
Qed.

(** ** Today's statistics *)

Lemma count_nonneg (p : object -> bool) (rows : list object) :
  (0 <= count p rows)%Z.
Proof. unfold count. lia. Qed.

Lemma count_le_length (p : object -> bool) (rows : list object) :
  (count p rows <= Z.of_nat (List.length rows))%Z.
Proof.
  unfold count. apply Nat2Z.inj_le.
  induction rows as [|c rows IH]; simpl; [lia|].
  destruct (p c); simpl; lia.
Qed.

Lemma count_exclusive (p q r : object -> bool) (rows : list object) :
  (forall c, (p c = false \/ q c = false) /\ (p c = false \/ r c = false)
             /\ (q c = false \/ r c = false)) ->
  (count p rows + count q rows + count r rows <= Z.of_nat (List.length rows))%Z.
Proof.
  intro Hx. unfold count.
  rewrite <- !Nat2Z.inj_add. apply Nat2Z.inj_le.
  induction rows as [|c rows IH]; simpl; [lia|].
  destruct (Hx c) as (Hpq & Hpr & Hqr).
  destruct (p c), (q c), (r c); simpl;
    try lia;
    destruct Hpq as [H|H]; try discriminate H;
    destruct Hpr as [H'|H']; try discriminate H';
    destruct Hqr as [H''|H'']; try discriminate H''.
Qed.

Lemma has_status_exclusive (a b : string) (c : object) :
  a <> b -> has_status a c = false \/ has_status b c = false.
Proof.
  intro Hne. unfold has_status.
  destruct (strict_eq (lookup "status" c) (Some (JStr a))) eqn:Ea; [|now left].
  right. apply strict_eq_string in Ea. rewrite Ea. simpl.
  now apply eqb_string_false.
Qed.

(** X12.  The summary of [today_stats] reports the number of rows as
    [total]; its counts are never negative, [connected] is at most
    [total], and [completed], [failed] and [inProgress] count disjoint
    sets of rows, so their sum is at most [total].  On a day without
    calls both rates are 0: nothing is divided by zero. *)
Theorem today_summary_counts (rows : list object) :
  exists total completed connected failed inProgress rate avg,
    today_summary round_percent round_quotient rows =
      JObj [ ("total", JNum total); ("completed", JNum completed);
             ("connected", JNum connected); ("failed", JNum failed);
             ("inProgress", JNum inProgress); ("connectionRate", JNum rate);
             ("avgDuration", JNum avg) ] /\
    total = Z.of_nat (List.length rows) /\
    (0 <= completed /\ 0 <= failed /\ 0 <= inProgress /\ 0 <= connected)%Z /\
    (connected <= total)%Z /\
    (completed + failed + inProgress <= total)%Z /\
    (rows = [] -> rate = 0%Z /\ avg = 0%Z).
Proof.
  unfold today_summary. do 7 eexists. split; [reflexivity|].
  split; [reflexivity|].
  split; [repeat split; apply count_nonneg|].
  split; [apply count_le_length|].
  split.
  - apply count_exclusive. intro c. repeat split.
    + apply has_status_exclusive. discriminate.
    + destruct (has_status "completed" c) eqn:E; [|now left]. right.
      destruct (has_status_exclusive c (a:="completed") (b:="initiated")) as [H|H];
        [discriminate | congruence |].
      destruct (has_status_exclusive c (a:="completed") (b:="in_progress")) as [H'|H'];
        [discriminate | congruence |].
      now rewrite H, H'.
    + destruct (has_status "failed" c) eqn:E; [|now left]. right.
      destruct (has_status_exclusive c (a:="failed") (b:="initiated")) as [H|H];
        [discriminate | congruence |].
      destruct (has_status_exclusive c (a:="failed") (b:="in_progress")) as [H'|H'];
        [discriminate | congruence |].
      now rewrite H, H'.
  - intros ->. split; reflexivity.
Qed.

Lemma count_permutation (p : object -> bool) (rows rows' : list object) :
  Permutation rows rows' -> count p rows = count p rows'.
Proof.
  intro H. unfold count. f_equal.
  induction H as [|x l l' _ IH|x y l|l l' l'' _ IH1 _ IH2]; simpl.
  - reflexivity.
  - destruct (p x); simpl; now rewrite IH.
  - destruct (p x), (p y); reflexivity.
  - now rewrite IH1.
Qed.

Lemma duration_permutation (rows rows' : list object) :
  Permutation rows rows' ->
  forall acc,
    fold_left (fun sum c => (sum + duration_or_zero c)%Z) rows acc =
    fold_left (fun sum c => (sum + duration_or_zero c)%Z) rows' acc.
Proof.
  intro H. induction H as [|x l l' _ IH|x y l|l l' l'' _ IH1 _ IH2]; intro acc; simpl.
  - reflexivity.
  - apply IH.
  - f_equal. lia.
  - now rewrite IH1.
Qed.


(** ** The joins of [demo_calls] *)

Lemma strict_eq_true (x y : option json) : strict_eq x y = true -> x = y.
Proof.
  destruct x as [[|a|a|a|a|a]|], y as [[|b|b|b|b|b]|]; simpl; intro H;
    try discriminate; try reflexivity.
  - apply Bool.eqb_prop in H. now subst.
  - apply Z.eqb_eq in H. now subst.
  - apply String.eqb_eq in H. now subst.
Qed.

Lemma ForallOrdPairs_filter {A} (R : A -> A -> Prop) (p : A -> bool) (l : list A) :
  ForallOrdPairs R l -> ForallOrdPairs R (filter p l).
Proof.
  induction 1 as [|a l Ha Hl IH]; simpl; [constructor|].
  destruct (p a); [|exact IH].
  constructor; [|exact IH].
  rewrite Forall_forall in *. intros x Hx. apply filter_In in Hx. now apply Ha.
Qed.

(** X14.  The list of ids a join asks for, [[...new Set(ids)]], holds
    every id of the rows and no other, and holds none twice: no two of
    its members are strictly equal. *)
Theorem distinct_each_once (xs : list (option json)) :
  (forall x, In x (distinct xs) <-> In x xs) /\
  ForallOrdPairs (fun x y => strict_eq x y = false) (distinct xs).
Proof.
  induction xs as [|x rest [IHin IHpairs]]; simpl.
  - split; [tauto | constructor].
  - split.
    + intro y. split.
      * intros [->|Hy]; [now left|]. apply filter_In in Hy. right. now apply IHin.
      * intros [->|Hy]; [now left|].
        destruct (strict_eq x y) eqn:E.
        -- left. now apply strict_eq_true.
        -- right. apply filter_In. split; [now apply IHin | now rewrite E].
    + constructor.
      * rewrite Forall_forall. intros y Hy. apply filter_In in Hy.
        destruct Hy as [_ Hy]. now destruct (strict_eq x y).
      * now apply ForallOrdPairs_filter.
Qed.

Lemma joined_found (rows : option (list object)) (key : option json) (t : object) :
  joined rows key = JObj t ->
  In t (or_empty rows) /\ lookup "id" t = key.
Proof.
  unfold joined. destruct rows as [rs|]; [|discriminate].
  destruct (List.find _ rs) as [r|] eqn:F; [|discriminate].
  intro E. injection E as <-. apply find_some in F. destruct F as [Hin Heq].
  split; [exact Hin | now apply strict_eq_true].
Qed.

Lemma joined_shape (rows : option (list object)) (key : option json) :
  joined rows key = JNull \/ exists t, joined rows key = JObj t.
Proof.
  unfold joined. destruct rows as [rs|]; [|now left].
  destruct (List.find _ rs) as [r|]; [right; now exists r | now left].
Qed.

Lemma joined_match (rows : option (list object)) (key : option json) (t : object) :
  In t (or_empty rows) -> strict_eq (lookup "id" t) key = true ->
  exists t', joined rows key = JObj t'.
Proof.
  intros Hin Heq. unfold joined. destruct rows as [rs|]; [|contradiction].
  destruct (List.find (fun r => strict_eq (lookup "id" r) key) rs) as [r|] eqn:F.
  - now exists r.
  - exfalso. pose proof (find_none _ _ F t Hin) as H. simpl in H. congruence.
Qed.

(** X15.  For an authenticated request [action=demo_calls] whose three
    fetches resolve, the first without error: the handler asks the
    [tasks] and [aitel_agents] tables for the distinct task and agent
    ids of the listed calls, and answers 200.  In every row [tasks] is
    [null] or a fetched task whose id is the [task_id] of the call, and
    it is not [null] when a fetched task has that id; the same holds for
    [aitel_agents] and [agent_id].  When a join fetch answers with an
    error the listing is still returned, with [null] in place of the
    joined rows. *)
Theorem demo_calls_joined (be : Backend) (req : Request) (userId : string)
        (userRole : option json) (r rt ra : PostgrestResponse (list object))
        (i : nat) (call : object) :
  let q := demo_calls_query userRole (searchParams_get "engineer_id" (searchParams req)) in
  let qt := demo_tasks_query (distinct (map (lookup "task_id") (or_empty (data r)))) in
  let qa := demo_agents_query (distinct (map (lookup "agent_id") (or_empty (data r)))) in
  authenticated be req userId ->
  resolved_role be userId userRole ->
  action_of req = Some "demo_calls" ->
  fetch_rows be q = Resolved r -> error r = None ->
  fetch_rows be qt = Resolved rt ->
  fetch_rows be qa = Resolved ra ->
  nth_error (or_empty (data r)) i = Some call ->
  status (fst (run be req)) = 200%Z /\
  snd (run be req) = (gate_trace req userId ++ [Fetch q; Fetch qt; Fetch qa])%list /\
  exists out,
    nth_error (rows_of (fst (run be req))) i = Some (JObj out) /\
    (lookup "tasks" out = Some JNull \/ exists t, lookup "tasks" out = Some (JObj t)) /\
    (forall t, lookup "tasks" out = Some (JObj t) ->
       In t (or_empty (data rt)) /\ lookup "id" t = lookup "task_id" call) /\
    (forall t, In t (or_empty (data rt)) ->
       strict_eq (lookup "id" t) (lookup "task_id" call) = true ->
       exists t', lookup "tasks" out = Some (JObj t')) /\
    (data rt = None -> lookup "tasks" out = Some JNull) /\
    (forall a, lookup "aitel_agents" out = Some (JObj a) ->
       In a (or_empty (data ra)) /\ lookup "id" a = lookup "agent_id" call) /\
    (forall a, In a (or_empty (data ra)) ->
       strict_eq (lookup "id" a) (lookup "agent_id" call) = true ->
       exists a', lookup "aitel_agents" out = Some (JObj a')) /\
    (data ra = None -> lookup "aitel_agents" out = Some JNull).
Proof.
  intros q qt qa Ha Hr Hact Hf He Hft Hfa Hi. subst q qt qa.
  rewrite (@serve_dispatched cipher no_data round_percent round_quotient _ _ _ _ Ha Hr).
  pick_action Hact.
  unfold demo_calls, bind, await_rows, await. rewrite Hf. cbv beta iota.
  rewrite He, Hft. cbv beta iota. rewrite Hfa. cbv beta iota.
  split; [reflexivity|]. split.
  { reflexivity. }
  exists (mask_demo_call cipher no_data (data rt) (data ra) call). split.
  { unfold settle, ret, ok, rows_of. simpl.
    apply (map_nth_error JObj).
    now apply (map_nth_error (mask_demo_call cipher no_data (data rt) (data ra))). }
  unfold mask_demo_call. lookup_through.
  repeat split.
  - destruct (joined_shape (data rt) (lookup "task_id" call)) as [E|[t E]];
      rewrite E; [now left | right; now exists t].
  - injection H as H. now apply (joined_found _ _ H).
  - injection H as H. now apply (joined_found _ _ H).
  - intros t Hin Heq. destruct (joined_match _ _ t Hin Heq) as [t' E].
    exists t'. now rewrite E.
  - intros ->. reflexivity.
  - injection H as H. now apply (joined_found _ _ H).
  - injection H as H. now apply (joined_found _ _ H).
  - intros a Hin Heq. destruct (joined_match _ _ a Hin Heq) as [a' E].
    exists a'. now rewrite E.
  - intros ->. reflexivity.
Qed.

(** ** What of a request the handler reads *)

(** X16.  The answer and the outside calls depend on the request only
    through its method, its Authorization header and the first value of
    the query parameters [action], [engineer_id], [client_id],
    [start_date], [status] and [assigned_to]: any other parameter, and
    any repetition of these, is ignored. *)
Theorem only_read_parameters_matter (be : Backend) (req req' : Request) :
  method req = method req' ->
  authorization req = authorization req' ->
  (forall name, In name read_parameters ->
     searchParams_get name (searchParams req) =
     searchParams_get name (searchParams req')) ->
  run be req = run be req'.
Proof.
  intros Hm Ha Hp.
  assert (P1 := Hp "action" ltac:(simpl; tauto)).
  assert (P2 := Hp "engineer_id" ltac:(simpl; tauto)).
  assert (P3 := Hp "client_id" ltac:(simpl; tauto)).
  assert (P4 := Hp "start_date" ltac:(simpl; tauto)).
  assert (P5 := Hp "status" ltac:(simpl; tauto)).
  assert (P6 := Hp "assigned_to" ltac:(simpl; tauto)).
  unfold serve, proxy, dispatch, demo_calls, calls, tasks.
  now rewrite Hm, Ha, P1, P2, P3, P4, P5, P6.
Qed.

(** X17.  For [action=calls] the status value "all" stands for no
    status filter: a request with [status=all] is answered exactly as
    the same request without a [status] parameter, with the same query
    sent to the store. *)
Theorem calls_status_all_is_no_filter (be : Backend) (req req' : Request) :
  method req = method req' ->
  authorization req = authorization req' ->
  action_of req = Some "calls" ->
  action_of req' = Some "calls" ->
  searchParams_get "start_date" (searchParams req) =
    searchParams_get "start_date" (searchParams req') ->
  searchParams_get "client_id" (searchParams req) =
    searchParams_get "client_id" (searchParams req') ->
  searchParams_get "status" (searchParams req) = Some "all" ->
  searchParams_get "status" (searchParams req') = None ->
  run be req = run be req'.
Proof.
  unfold action_of. intros Hm Ha A A' P4 P3 S S'.
  unfold serve, proxy, dispatch, calls.
  rewrite Hm, Ha, A, A', P4, P3, S, S'. reflexivity.
Qed.

(** X18.  Metadata that is not an object is never passed on: a falsy
    value ([null], [false], 0, the empty text) is answered by [null], and
    any other value that is not an object (a text, a number, [true], an
    array) by the empty object. *)
Theorem sanitizeMetadata_not_an_object (v : json) :
  (forall fields, v <> JObj fields) ->
  sanitizeMetadata cipher no_data (Some v) =
    if truthy (Some v) then JObj [] else JNull.
Proof.
  intro Hno. unfold sanitizeMetadata.
  destruct (truthy (Some v)) eqn:T; [|reflexivity].
  simpl negb. cbv iota.
  replace (or_null (Some v)) with v by (unfold or_null; now rewrite T).
  destruct v as [|b|n|s|items|fields]; try reflexivity.
  exfalso. now apply (Hno fields).
Qed.

End Listings.

(** ** The further properties on sample data *)

(** A bearer token with no session behind it. *)
Lemma invalid_token_rejected_witness :
  Fake.respond Sample.db (Fake.get (Some "Bearer stale") [("action", "calls")]) =
  (json_response 401 (error_body "Invalid token"), [AuthCheck "Bearer stale"]).
Proof.
  apply (@invalid_token_rejected Fake.cipher Fake.no_data
           Fake.round_percent Fake.round_quotient (Fake.services Sample.db)
           (Fake.get (Some "Bearer stale") [("action", "calls")])
           "Bearer stale" {| user := None; authError := Some "invalid JWT" |}).
  - simpl. discriminate.
  - reflexivity.
  - reflexivity.
  - reflexivity.
  - left. discriminate.
Defined.

(** The identity service, then the role table, out of reach. *)
Lemma gate_outage_generic_witness :
  serve Fake.cipher Fake.no_data Fake.round_percent Fake.round_quotient
        Outage.identity_down (Fake.get (Some "Bearer adm") [("action", "calls")]) =
    (json_response 500 (error_body "Internal server error"), [AuthCheck "Bearer adm"]) /\
  serve Fake.cipher Fake.no_data Fake.round_percent Fake.round_quotient
        Outage.roles_down (Fake.get (Some "Bearer adm") [("action", "calls")]) =
    (json_response 500 (error_body "Internal server error"),
     [AuthCheck "Bearer adm"; Fetch (role_query "adm-1")]).
Proof.
  split.
  - refine (proj1 (@gate_outage_generic Fake.cipher Fake.no_data
                     Fake.round_percent Fake.round_quotient Outage.identity_down
                     (Fake.get (Some "Bearer adm") [("action", "calls")])
                     "Bearer adm" _ _ _)
                  "identity service unavailable" _);
      try reflexivity.
    simpl. discriminate.
  - refine (proj2 (@gate_outage_generic Fake.cipher Fake.no_data
                     Fake.round_percent Fake.round_quotient Outage.roles_down
                     (Fake.get (Some "Bearer adm") [("action", "calls")])
                     "Bearer adm" _ _ _)
                  "adm-1" "connection reset" _ _);
      try reflexivity.
    simpl. discriminate.
Defined.

(** The listing of demo calls fetched three tables, after the gate. *)
Lemma fetch_only_after_gate_witness :
  exists userId rest,
    authenticated (Fake.services Sample.db)
      (Fake.get (Some "Bearer eng1") [("action", "demo_calls")]) userId /\
    snd (Fake.respond Sample.db (Fake.get (Some "Bearer eng1") [("action", "demo_calls")])) =
      (gate_trace (Fake.get (Some "Bearer eng1") [("action", "demo_calls")]) userId
       ++ rest)%list /\
    Forall data_fetch rest /\
    List.length
      (snd (Fake.respond Sample.db (Fake.get (Some "Bearer eng1") [("action", "demo_calls")])))
    <= 5.
Proof.
  apply (@fetch_only_after_gate Fake.cipher Fake.no_data
           Fake.round_percent Fake.round_quotient (Fake.services Sample.db)
           (Fake.get (Some "Bearer eng1") [("action", "demo_calls")])
           (demo_calls_query engineer None)).
  simpl. tauto.
Defined.

(** The number of a column the listings leave alone. *)
Lemma listings_keep_other_columns_witness :
  lookup "status" (mask_call Fake.cipher Fake.no_data Sample.call_done) =
  lookup "status" Sample.call_done.
Proof.
  apply (proj1 (proj2 (@listings_keep_other_columns Fake.cipher Fake.no_data
                         Sample.call_done "status" None None))).
  simpl. intros [H|[H|[H|[H|[H|[H|[]]]]]]]; discriminate H.
Defined.

(** An admin monitors the calls in progress. *)
Lemma admin_actions_answer_witness :
  Fake.respond Sample.db (Fake.get (Some "Bearer adm") [("action", "active_calls")]) =
  (json_response 200
     (JArr [JObj (mask_call_fields Fake.cipher Fake.no_data Sample.call_pending)]),
   (gate_trace (Fake.get (Some "Bearer adm") [("action", "active_calls")]) "adm-1"
    ++ [Fetch active_calls_query])%list).
Proof.
  refine (proj1 (proj2
            (@admin_actions_answer Fake.cipher Fake.no_data
               Fake.round_percent Fake.round_quotient (Fake.services Sample.db)
               (Fake.get (Some "Bearer adm") [("action", "active_calls")])
               "adm-1" {| data := Some [Sample.call_pending]; error := None |}
               _ _ _)) _ _).
  - apply sample_authenticated; reflexivity.
  - eexists. split; reflexivity.
  - reflexivity.
  - reflexivity.
  - reflexivity.
Defined.

(** The recorded demo call as an admin sees it. *)
Lemma admin_demo_row_masked_witness :
  exists out,
    nth_error
      (rows_of (fst (Fake.respond Archive.db
                       (Fake.get (Some "Bearer adm") [("action", "admin_demo_calls")]))))
      0 = Some (JObj out) /\
    lookup "phone_number" out = Some (JStr "*********3210") /\
    lookup "external_call_id" out = Some (JStr "7c9e6679...") /\
    lookup "recording_url" out = Some (JStr "proxy:recording:d7") /\
    lookup "uploaded_audio_url" out = Some JNull /\
    lookup "engineer_id" out = Some (JStr "eng-1").
Proof.
  refine (@admin_demo_row_masked Fake.cipher Fake.no_data
            Fake.round_percent Fake.round_quotient (Fake.services Archive.db)
            (Fake.get (Some "Bearer adm") [("action", "admin_demo_calls")])
            "adm-1" {| data := Some [Archive.demo_recorded]; error := None |}
            0 Archive.demo_recorded "+919876543210"
            "7c9e6679-7425-40de-944b-e07fc1f90ae7" "https://storage.example/d7.mp3"
            _ _ _ _ _ _ _ _ _ _ _ _ _).
  - apply sample_authenticated; reflexivity.
  - eexists. split; reflexivity.
  - reflexivity.
  - reflexivity.
  - reflexivity.
  - reflexivity.
  - reflexivity.
  - simpl. lia.
  - reflexivity.
  - discriminate.
  - reflexivity.
  - discriminate.
  - reflexivity.
Defined.

(** The task of the sample data, listed for a user without a role. *)
Lemma task_row_masked_witness :
  exists out,
    nth_error
      (rows_of (fst (Fake.respond Sample.db
                       (Fake.get (Some "Bearer guest") [("action", "tasks")]))))
      0 = Some (JObj out) /\
    exists masked,
      lookup "aitel_agents" out = Some (JObj masked) /\
      lookup "external_agent_id" masked = Some (JStr "01234567...") /\
      lookup "current_system_prompt" masked = Some JNull /\
      lookup "agent_name" masked = Some (JStr "Asha").
Proof.
  destruct (@task_row_masked Fake.cipher Fake.no_data
              Fake.round_percent Fake.round_quotient (Fake.services Sample.db)
              (Fake.get (Some "Bearer guest") [("action", "tasks")])
              "u-9" None {| data := Some [Sample.task_row]; error := None |}
              0 Sample.task_row
              (@sample_authenticated Sample.db "Bearer guest" "u-9"
                 [("action", "tasks")] eq_refl eq_refl)
              (ex_intro _ _ (conj eq_refl eq_refl))
              eq_refl eq_refl eq_refl eq_refl)
    as (out & Hrow & _ & Hagent).
  exists out. split; [exact Hrow|].
  destruct (Hagent
              [("agent_name", JStr "Asha"); ("external_agent_id", JStr "0123456789abcdef")]
              "0123456789abcdef" eq_refl eq_refl ltac:(discriminate))
    as (masked & Hm & Hext & _ & Hnull & Hother).
  exists masked. split; [exact Hm|]. split; [exact Hext|]. split.
  - apply Hnull; [now left | reflexivity].
  - rewrite (Hother "agent_name"); [reflexivity|].
    simpl. intros [H|[H|[H|[]]]]; discriminate H.
Defined.


(** The joins answer with an error; the listing is returned without them. *)
Lemma demo_calls_joined_witness :
  status (fst (Fake.respond Outage.joins_denied
                 (Fake.get (Some "Bearer eng1") [("action", "demo_calls")]))) = 200%Z.
Proof.
  refine (proj1
    (@demo_calls_joined Fake.cipher Fake.no_data
       Fake.round_percent Fake.round_quotient (Fake.services Outage.joins_denied)
       (Fake.get (Some "Bearer eng1") [("action", "demo_calls")])
       "eng-1" engineer
       {| data := Some [Sample.demo_foreign; Sample.demo_own]; error := None |}
       {| data := None;
          error := Some {| message := "permission denied for table tasks" |} |}
       {| data := None;
          error := Some {| message := "permission denied for table aitel_agents" |} |}
       0 Sample.demo_foreign _ _ _ _ _ _ _ _)).
  - apply sample_authenticated; reflexivity.
  - eexists. split; reflexivity.
  - reflexivity.
  - reflexivity.
  - reflexivity.
  - reflexivity.
  - reflexivity.
  - reflexivity.
Defined.

(** A tracking parameter and a repeated [action] change nothing. *)
Lemma only_read_parameters_matter_witness :
  Fake.respond Sample.db
    (Fake.get (Some "Bearer adm") [("action", "calls"); ("utm", "x"); ("action", "tasks")]) =
  Fake.respond Sample.db (Fake.get (Some "Bearer adm") [("action", "calls")]).
Proof.
  apply (@only_read_parameters_matter Fake.cipher Fake.no_data
           Fake.round_percent Fake.round_quotient (Fake.services Sample.db)).
  - reflexivity.
  - reflexivity.
  - intros name Hin. simpl in Hin.
    destruct Hin as [<-|[<-|[<-|[<-|[<-|[<-|[]]]]]]]; reflexivity.
Defined.

(** [status=all] against no [status]. *)
Lemma calls_status_all_is_no_filter_witness :
  Fake.respond Sample.db
    (Fake.get (Some "Bearer adm") [("action", "calls"); ("status", "all")]) =
  Fake.respond Sample.db (Fake.get (Some "Bearer adm") [("action", "calls")]).
Proof.
  apply (@calls_status_all_is_no_filter Fake.cipher Fake.no_data
           Fake.round_percent Fake.round_quotient (Fake.services Sample.db));
    reflexivity.
Defined.

(** Metadata stored as an array. *)
Lemma sanitizeMetadata_not_an_object_witness :
  sanitizeMetadata Fake.cipher Fake.no_data (Some (JArr [JStr "secret"])) = JObj [].
Proof.
  apply (@sanitizeMetadata_not_an_object Fake.cipher Fake.no_data (JArr [JStr "secret"])).
  intros fields. discriminate.
Defined.

(** * The provider webhook *)

Example webhook_ended_short_call :
  snd (Webhook.receive (Webhook.memory [Webhook.dialled]) Webhook.digits_at_least
         (Webhook.post (Webhook.ended 30))) =
  [ Webhook.Select (Webhook.found_query "ext-9");
    Webhook.Update "calls"
      [ ("status", JStr "completed"); ("duration_seconds", JNum 30);
        ("connected", JBool false); ("ended_at", JStr "2025-01-02T10:00:00.000Z");
        ("metadata",
           JObj [ ("source", JStr "fb"); ("transcript", JStr "Agent: hello. User: hi.");
                  ("recording_url", JStr "https://provider.example/rec/9.mp3") ]) ]
      "id" "c9";
    Webhook.Update "leads" [("status", JStr "completed")] "id" "l9" ].
Proof. reflexivity. Qed.

Lemma lookup_remove (k k' : string) (o : object) :
  lookup k (Webhook.remove k' o) = if String.eqb k k' then None else lookup k o.
Proof.
  induction o as [|[k'' v''] rest IH]; simpl.
  - now destruct (String.eqb k k').
  - destruct (String.eqb_spec k' k'') as [->|Hk'].
    + rewrite IH. destruct (String.eqb_spec k k''); reflexivity.
    + simpl. rewrite IH.
      destruct (String.eqb_spec k k'') as [->|Hk].
      * now rewrite (eqb_string_false (not_eq_sym Hk')).
      * reflexivity.
Qed.

Lemma lookup_put (k k' : string) (v : option json) (o : object) :
  lookup k (Webhook.put k' v o) = if String.eqb k k' then v else lookup k o.
Proof.
  destruct v as [x|]; simpl; [apply lookup_set | apply lookup_remove].
Qed.

Section WebhookProperties.

Variable store : Webhook.Store.
Variable coerced_at_least : json -> Z -> Webhook.Settled bool.

Local Abbreviation receive := (Webhook.receive store coerced_at_least).
Local Abbreviation apply_event := (Webhook.apply_event store coerced_at_least).

Lemma member_defined (name : string) (v : json) :
  v <> JNull -> Webhook.member name v = Webhook.pure (prop name v).
Proof. intro H. destruct v; try reflexivity. now contradiction H. Qed.

Lemma event_not_null (payload : json) (name : string) :
  Webhook.event_is payload name = true -> payload <> JNull.
Proof. intros H E. subst payload. discriminate H. Qed.

Lemma event_unique (payload : json) (a b : string) :
  Webhook.event_is payload a = true -> a <> b -> Webhook.event_is payload b = false.
Proof.
  unfold Webhook.event_is. intros Ha Hne. apply strict_eq_string in Ha.
  rewrite Ha. simpl. now apply eqb_string_false.
Qed.

(** A write is issued once the operand of its filter has a text. *)
Lemma write_run (tb : string) (values : object) (column : string)
      (v : option json) (t : list Webhook.Effect) :
  Webhook.write store tb values column v t =
  if Webhook.has_text v then
    (Webhook.update store tb values column (template v),
     (t ++ [Webhook.Update tb values column (template v)])%list)
  else (Webhook.Failed (Webhook.ErrorWith Webhook.not_primitive), t).
Proof.
  unfold Webhook.write, Webhook.text_of, Webhook.and_then.
  now destruct (Webhook.has_text v).
Qed.

(** Up to the lookup. *)
Lemma receive_lookup (req : Webhook.Delivery) (payload : json) :
  Webhook.verb req <> "OPTIONS" ->
  Webhook.json_body req = Webhook.Fulfilled payload ->
  payload <> JNull ->
  Webhook.has_text (prop "call_id" payload) = true ->
  let q := Webhook.found_query (template (prop "call_id" payload)) in
  receive req =
    Webhook.recover
      match Webhook.find store q with
      | Webhook.Fulfilled r =>
          match error r, data r with
          | None, Some call =>
              match apply_event call payload [Webhook.Select q] with
              | (Webhook.Fulfilled _, t) =>
                  (Webhook.Fulfilled (json_response 200 (JObj [("success", JBool true)])), t)
              | (Webhook.Failed e, t) => (Webhook.Failed e, t)
              end
          | _, _ =>
              (Webhook.Fulfilled
                 (json_response 404
                    (JObj [("success", JBool false); ("error", JStr "Call not found")])),
               [Webhook.Select q])
          end
      | Webhook.Failed e => (Webhook.Failed e, [Webhook.Select q])
      end.
Proof.
  intros Hv Hb Hp Ht q. subst q. unfold Webhook.receive, Webhook.process.
  rewrite (eqb_string_false Hv).
  unfold Webhook.and_then, Webhook.await_find. rewrite Hb. cbv beta iota.
  rewrite (member_defined "call_id" Hp). unfold Webhook.pure at 1. cbv beta iota.
  unfold Webhook.text_of. rewrite Ht. unfold Webhook.pure at 1. cbv beta iota.
  simpl app.
  destruct (Webhook.find store _) as [r|e]; [|reflexivity].
  destruct (error r); [reflexivity|].
  destruct (data r) as [call|]; [|reflexivity].
  now destruct (Webhook.apply_event store coerced_at_least call payload _) as [[u|e] t].
Qed.


(** An event the [switch] does not know changes nothing. *)
Lemma apply_event_unknown (call : object) (payload : json) (t0 : list Webhook.Effect) :
  (forall name, In name Webhook.known_events ->
     Webhook.event_is payload name = false) ->
  apply_event call payload t0 = (Webhook.Fulfilled tt, t0).
Proof.
  intro H. unfold Webhook.apply_event.
  rewrite (H "call.ringing"), (H "call.answered"), (H "call.connected"),
          (H "call.ended"), (H "call.completed"), (H "call.failed"),
          (H "call.no_answer");
    solve [reflexivity | simpl; tauto].
Qed.

(** What the [switch] does, whatever the writes answer: at most two
    writes, the first to the found call, the second to its lead. *)
Lemma apply_event_writes (call : object) (payload : json) (t0 : list Webhook.Effect) :
  let cid := template (lookup "id" call) in
  let lid := template (lookup "lead_id" call) in
  exists ws,
    snd (apply_event call payload t0) = (t0 ++ ws)%list /\
    List.length ws <= 2 /\
    Forall (fun e =>
              (exists values s,
                 e = Webhook.Update "calls" values "id" cid /\
                 lookup "status" values = Some (JStr s) /\
                 In s Webhook.call_statuses) \/
              (exists values, e = Webhook.Update "leads" values "id" lid)) ws.
Proof.
  intros cid lid. subst cid lid. unfold Webhook.apply_event.
  assert (Hnone : forall (o : Webhook.Settled unit) P,
            exists ws, snd (o, t0) = (t0 ++ ws)%list /\ List.length ws <= 2 /\
                       Forall P ws).
  { intros o P. exists []. rewrite app_nil_r. simpl. repeat split; [lia | constructor]. }
  assert (Hone : forall (o : Webhook.Settled unit) values s,
    lookup "status" values = Some (JStr s) -> In s Webhook.call_statuses ->
    exists ws,
      snd (o, (t0 ++ [Webhook.Update "calls" values "id"
                        (template (lookup "id" call))])%list) = (t0 ++ ws)%list /\
      List.length ws <= 2 /\
      Forall (fun e =>
                (exists values s,
                   e = Webhook.Update "calls" values "id" (template (lookup "id" call)) /\
                   lookup "status" values = Some (JStr s) /\
                   In s Webhook.call_statuses) \/
                (exists values,
                   e = Webhook.Update "leads" values "id"
                         (template (lookup "lead_id" call)))) ws).
  { intros o values s Hs Hin. eexists [_]. simpl. split; [reflexivity|].
    split; [lia|]. constructor; [|constructor]. left. now exists values, s. }
  assert (Htwo : forall (o : Webhook.Settled unit) values s values',
    lookup "status" values = Some (JStr s) -> In s Webhook.call_statuses ->
    exists ws,
      snd (o, ((t0 ++ [Webhook.Update "calls" values "id"
                         (template (lookup "id" call))])
               ++ [Webhook.Update "leads" values' "id"
                     (template (lookup "lead_id" call))])%list) = (t0 ++ ws)%list /\
      List.length ws <= 2 /\
      Forall (fun e =>
                (exists values s,
                   e = Webhook.Update "calls" values "id" (template (lookup "id" call)) /\
                   lookup "status" values = Some (JStr s) /\
                   In s Webhook.call_statuses) \/
                (exists values,
                   e = Webhook.Update "leads" values "id"
                         (template (lookup "lead_id" call)))) ws).
  { intros o values s values' Hs Hin. eexists [_; _]. simpl.
    rewrite <- app_assoc. split; [reflexivity|]. split; [lia|].
    constructor; [|constructor; [|constructor]].
    - left. now exists values, s.
    - right. now exists values'. }
  assert (Hpair : forall values s values',
    lookup "status" values = Some (JStr s) -> In s Webhook.call_statuses ->
    exists ws,
      snd (Webhook.and_then
             (Webhook.write store "calls" values "id" (lookup "id" call))
             (fun _ => Webhook.write store "leads" values' "id" (lookup "lead_id" call))
             t0) = (t0 ++ ws)%list /\
      List.length ws <= 2 /\
      Forall (fun e =>
                (exists values s,
                   e = Webhook.Update "calls" values "id" (template (lookup "id" call)) /\
                   lookup "status" values = Some (JStr s) /\
                   In s Webhook.call_statuses) \/
                (exists values,
                   e = Webhook.Update "leads" values "id"
                         (template (lookup "lead_id" call)))) ws).
  { intros values s values' Hs Hin. unfold Webhook.and_then. rewrite write_run.
    destruct (Webhook.has_text (lookup "id" call)); [|apply Hnone].
    destruct (Webhook.update store "calls" _ _ _); cbv beta iota;
      [|now apply (Hone _ values s)].
    rewrite write_run.
    destruct (Webhook.has_text (lookup "lead_id" call));
      [now apply (Htwo _ values s) | now apply (Hone _ values s)]. }
  destruct (Webhook.event_is payload "call.ringing").
  { rewrite write_run. destruct (Webhook.has_text (lookup "id" call)); [|apply Hnone].
    apply (Hone _ _ "ringing"); simpl; tauto. }
  destruct (Webhook.event_is payload "call.answered" ||
            Webhook.event_is payload "call.connected").
  { apply (Hpair _ "in_progress"); simpl; tauto. }
  destruct (Webhook.event_is payload "call.ended" ||
            Webhook.event_is payload "call.completed").
  { unfold Webhook.and_then at 1. unfold Webhook.at_least.
    destruct (Webhook.compared coerced_at_least _ 45) as [isConnected|e];
      cbv beta iota; [|apply Hnone].
    apply (Hpair _ "completed"); simpl; tauto. }
  destruct (Webhook.event_is payload "call.failed" ||
            Webhook.event_is payload "call.no_answer").
  { destruct (Webhook.event_is payload "call.no_answer");
      [apply (Hpair _ "no_answer") | apply (Hpair _ "failed")]; simpl; tauto. }
  apply Hnone.
Qed.




End WebhookProperties.

Section WebhookMetadata.

Variable cipher : string -> EncryptedPayload.
Variable no_data : json.

Local Abbreviation sanitize := (sanitizeMetadata cipher no_data).

(** The sanitizer looks at the allow-listed keys and at
    [extracted_data], and at nothing else. *)
Lemma sanitize_reads_listed_keys (m m' : json) :
  truthy (Some m) = true -> truthy (Some m') = true ->
  (forall k, In k ("extracted_data" :: allow_list) -> prop k m = prop k m') ->
  sanitize (Some m) = sanitize (Some m').
Proof.
  intros T T' H. unfold sanitizeMetadata. rewrite T, T'. simpl negb. cbv iota.
  replace (or_null (Some m)) with m by (unfold or_null; now rewrite T).
  replace (or_null (Some m')) with m' by (unfold or_null; now rewrite T').
  unfold keep_truthy, keep_defined.
  rewrite (H "source"), (H "is_retry"), (H "lead_name"), (H "campaign_id"),
          (H "aitel_status"), (H "error_message"), (H "retry_attempt"),
          (H "answered_by_voicemail"), (H "extracted_data");
    solve [reflexivity | simpl; tauto].
Qed.

(** X22.  The metadata the webhook writes when a call ends keeps every
    key of the stored metadata except [recording_url] and [transcript],
    which it takes from the payload.  Neither of the two is ever passed
    on by the proxy: the sanitized form of the written metadata has no
    [transcript] and no [recording_url], and equals the sanitized form of
    the metadata stored before. *)
Theorem webhook_metadata_stays_private (call : object) (payload : json) :
  let written := Webhook.merged_metadata call payload in
  lookup "recording_url" written = prop "recording_url" payload /\
  lookup "transcript" written = prop "transcript" payload /\
  prop "transcript" (sanitize (Some (JObj written))) = None /\
  prop "recording_url" (sanitize (Some (JObj written))) = None /\
  (forall old,
     lookup "metadata" call = Some (JObj old) ->
     (forall k, k <> "recording_url" -> k <> "transcript" ->
        lookup k written = lookup k old) /\
     sanitize (Some (JObj written)) = sanitize (Some (JObj old))).
Proof.
  intro written. subst written. unfold Webhook.merged_metadata.
  split; [rewrite !lookup_put; reflexivity|].
  split; [rewrite !lookup_put; reflexivity|].
  split; [exact (sanitized_lookup cipher no_data (JObj _) "transcript" eq_refl)|].
  split; [exact (sanitized_lookup cipher no_data (JObj _) "recording_url" eq_refl)|].
  intros old Hold. rewrite Hold. simpl or_null. simpl spread.
  assert (Hkeep : forall k, k <> "recording_url" -> k <> "transcript" ->
            lookup k (Webhook.put "transcript" (prop "transcript" payload)
                        (Webhook.put "recording_url" (prop "recording_url" payload) old))
            = lookup k old).
  { intros k H1 H2.
    now rewrite !lookup_put, (eqb_string_false H1), (eqb_string_false H2). }
  split; [exact Hkeep|].
  apply sanitize_reads_listed_keys; try reflexivity.
  intros k Hk. unfold prop. apply Hkeep; intros ->; simpl in Hk;
    repeat (destruct Hk as [Hk|Hk]; [discriminate Hk|]); contradiction.
Qed.

End WebhookMetadata.




(** The stale transcript in the metadata of the sample call. *)
Lemma webhook_metadata_stays_private_witness :
  sanitizeMetadata Fake.cipher Fake.no_data
    (Some (JObj (Webhook.merged_metadata Webhook.dialled (Webhook.ended 30)))) =
  JObj [("source", JStr "fb")].
Proof.
  rewrite (proj2 (proj2 (proj2 (proj2 (proj2
             (@webhook_metadata_stays_private Fake.cipher Fake.no_data
                Webhook.dialled (Webhook.ended 30)))))
             [("source", JStr "fb"); ("transcript", JStr "stale")] eq_refl)).
  reflexivity.
Defined.

